(** * sd-watcher-afk: the AFK watcher's settings and heartbeat loop

    A shallow embedding of [sd_watcher_afk/afk.py] and
    [sd_watcher_afk/macos.py], and of the input listeners of
    [sd_watcher_afk/listeners.py] with their callbacks taken one at a time.

    Numbers.  Python's seconds (ints from the configuration, floats from
    the idle probe) and [datetime]/[timedelta] values are embedded as
    rationals: a duration is a number of seconds, an instant is a number of
    seconds since the epoch.  [timedelta(seconds=s)] rounds [s] to a whole
    number of microseconds, ties to the even one, and [td1ms] is [1/1000].
    Comparisons and sums of seconds are exact: the rounding of floating-point
    operations, infinities and NaN are not modelled, and neither are the
    errors [timedelta] and [datetime] raise outside their ranges.

    Effects.  The loop reads the outside world (parent pid, clock, idle
    probe, interruptions of [sleep]) and writes heartbeats and log records.
    What it reads in one iteration is a [cycle_env]; what it writes is
    appended to a trace.  Exceptions are values; the state reached when an
    exception is raised is kept, as in Python. *)

From Stdlib Require Import QArith Lqa.
From Stdlib Require Import Qround.
From Stdlib Require Import Sorted.
From stdpp Require Import gmap strings list.
From stdpp Require Import pretty.

Local Open Scope string_scope.
Local Open Scope list_scope.
Local Open Scope Q_scope.

(** ** Numbers *)

(** [a < b] on numbers, as a boolean. *)
Definition Qlt_bool (a b : Q) : bool := negb (Qle_bool b a).

(** Truth value of a number: everything but zero. *)
Definition Qtruthy (q : Q) : bool := negb (Qeq_bool q 0).

(** [td1ms = timedelta(milliseconds=1)] *)
Definition td1ms : Q := 1 # 1000.

(** The resolution of [timedelta] and [datetime]. *)
Definition microsecond : Q := 1 # 1000000.

(** The nearest integer, the even one of the two when [x] lies halfway. *)
Definition round_half_even (x : Q) : Z :=
  let f := Qfloor x in
  match Qcompare (x - inject_Z f) (1 # 2) with
  | Lt => f
  | Gt => (f + 1)%Z
  | Eq => if Z.even f then f else (f + 1)%Z
  end.

(** [timedelta(seconds=s)], in seconds: [s] rounded to whole microseconds. *)
Definition timedelta (seconds : Q) : Q :=
  inject_Z (round_half_even (seconds * 1000000)) * microsecond.

(** The instants a [datetime] holds, years 1 to 9999, in seconds since the
    epoch. *)
Definition representable (t : Q) : Prop :=
  -62135596800 <= t /\ t <= 253402300800 - microsecond.

(** ** Exceptions *)

(** [KeyboardInterrupt] derives from [BaseException] only; the others are
    subclasses of [Exception]. *)
Inductive exn : Type :=
| KeyboardInterrupt
| KeyError (key : string)
| AssertionError (msg : string)
| ValueError (msg : string)
| OSError (msg : string).

Definition is_Exception (e : exn) : bool :=
  match e with
  | KeyboardInterrupt => false
  | _ => true
  end.

(** [str(e)] *)
Definition str (e : exn) : string :=
  match e with
  | KeyboardInterrupt => ""
  | KeyError key => "'" +:+ key +:+ "'"
  | AssertionError msg | ValueError msg | OSError msg => msg
  end.

(** ** Settings *)

(** [d[key]] on a configuration section. *)
Definition getitem (d : gmap string Q) (key : string) : exn + Q :=
  match d !! key with
  | Some v => inr v
  | None => inl (KeyError key)
  end.

(** [a or b] where [a] is an optional number ([None] and zero are falsy)
    and [b] is evaluated only when needed. *)
Definition py_or (a : option Q) (b : exn + Q) : exn + Q :=
  match a with
  | Some q => if Qtruthy q then inr q else b
  | None => b
  end.

Definition assert_msg : string :=
  "Timeout must be greater than or equal to poll_time".

Module Settings.

Record t : Type := { timeout : Q; poll_time : Q }.

(** [Settings.__init__(self, config_section, timeout=None, poll_time=None)] *)
Definition __init__ (config_section : gmap string Q)
    (timeout poll_time : option Q) : exn + t :=
  match py_or timeout (getitem config_section "timeout") with
  | inl e => inl e
  | inr self_timeout =>
    match py_or poll_time (getitem config_section "poll_time") with
    | inl e => inl e
    | inr self_poll_time =>
      if Qle_bool self_poll_time self_timeout
      then inr {| timeout := self_timeout; poll_time := self_poll_time |}
      else inl (AssertionError assert_msg)
    end
  end.

End Settings.

(** ** Events, effects and the loop's monad *)

(** [sd_core.models.Event(timestamp, duration, data)] *)
Record Event : Type :=
  { timestamp : Q; duration : Q; data : gmap string string }.

Inductive log_level : Type := DEBUG | INFO | ERROR.

(** What the watcher does to the outside world. *)
Inductive effect : Type :=
| Log (level : log_level) (msg : string)
| LogSeconds (level : log_level) (msg : string) (seconds : Q)
| Print (msg : string)
| Heartbeat (bucket : string) (e : Event) (pulsetime : Q) (queued : bool).

(** The local variable [afk] of [heartbeat_loop] and everything emitted so
    far, oldest first. *)
Record world : Type := { afk : bool; trace : list effect }.

(** A computation that may raise; the world it reached is kept either way. *)
Definition M (A : Type) : Type := world -> (exn + A) * world.

Definition ret {A} (a : A) : M A := fun w => (inr a, w).

Definition bind {A B} (m : M A) (k : A -> M B) : M B :=
  fun w =>
    match m w with
    | (inl e, w') => (inl e, w')
    | (inr a, w') => k a w'
    end.

Declare Scope py_scope.
Delimit Scope py_scope with py.
Notation "x <- m ;; k" := (bind m (fun x => k))
  (at level 100, m at next level, right associativity) : py_scope.
Notation "m ;; k" := (bind m (fun _ => k))
  (at level 100, right associativity) : py_scope.
Local Open Scope py_scope.

Definition raise {A} (e : exn) : M A := fun w => (inl e, w).

Definition lift {A} (r : exn + A) : M A := fun w => (r, w).

Definition emit (x : effect) : M unit :=
  fun w => (inr tt, {| afk := afk w; trace := trace w ++ [x] |}).

Definition get_afk : M bool := fun w => (inr (afk w), w).

Definition set_afk (b : bool) : M unit :=
  fun w => (inr tt, {| afk := b; trace := trace w |}).

(** [try: m except Exception as e: handler(e)]; a [KeyboardInterrupt]
    passes through. *)
Definition try_except_Exception {A} (m : M A) (handler : exn -> M A) : M A :=
  fun w =>
    match m w with
    | (inl e, w') => if is_Exception e then handler e w' else (inl e, w')
    | r => r
    end.

(** ** The idle probe *)

(** [platform.system()]; on any other value the module raises on import. *)
Inductive platform : Type := Windows | Darwin | Linux.

Module macos.
(** [macos.seconds_since_last_input()]; [cg] is the outcome of the call to
    [CGEventSourceSecondsSinceLastEventType]. *)
Definition seconds_since_last_input (cg : exn + Q) : M Q :=
  try_except_Exception (lift cg)
    (fun e => emit (Print ("Error retrieving input event time: " +:+ str e));;
              ret (-1)).
End macos.

(** The probe bound at import time.  [windows.py] and [unix.py] are not part
    of the sources: on these platforms the outcome of the probe is taken as
    given. *)
Definition seconds_since_last_input (system : platform) (os_idle : exn + Q)
    : M Q :=
  match system with
  | Darwin => macos.seconds_since_last_input os_idle
  | Windows | Linux => lift os_idle
  end.

(** [time.sleep(secs)]: refuses a negative length; [interrupt] is what is
    delivered to the process while it sleeps. *)
Definition sleep (secs : Q) (interrupt : option exn) : M unit :=
  if Qlt_bool secs 0 then raise (ValueError "sleep length must be non-negative")
  else match interrupt with
       | Some e => raise e
       | None => ret tt
       end.

(** ** The watcher *)

(** The command-line arguments [AFKWatcher.__init__] reads for its settings. *)
Record Namespace : Type :=
  { args_timeout : option Q; args_poll_time : option Q }.

(** What one iteration of the loop reads from the outside world. *)
Record cycle_env : Type :=
  { ppid : Z;                 (* os.getppid() *)
    now : Q;                  (* datetime.now(timezone.utc) *)
    os_idle : exn + Q;        (* outcome of the platform's idle query *)
    interrupt : option exn    (* delivered during sleep, if any *) }.

Inductive ctl : Type := Continue | Break.

(** [system in ["Darwin", "Linux"] and os.getppid() == 1] *)
Definition parent_died (system : platform) (ppid : Z) : bool :=
  match system with Darwin | Linux => true | Windows => false end
  && (ppid =? 1)%Z.

(** How far a run has come on the iterations observed so far. *)
Inductive run_status : Type := Running | Stopped.

Module AFKWatcher.

Record t : Type := { settings : Settings.t; bucketname : string }.

(** [AFKWatcher.__init__(self, args, testing)]: [config_section] is what
    [load_config(testing)] returned and [client_name] the name the client
    reports; the settings are built before the client is. *)
Definition __init__ (config_section : gmap string Q) (args : Namespace)
    (client_name : string) : exn + t :=
  match Settings.__init__ config_section (args_timeout args)
          (args_poll_time args) with
  | inl e => inl e
  | inr s => inr {| settings := s; bucketname := client_name |}
  end.

(** [ping(self, afk, timestamp, duration=0)]; the client queues the
    heartbeat ([queued=True]) and does not raise. *)
Definition ping (self : t) (afk : bool) (timestamp : Q)
    (duration : option Q) : M unit :=
  let data : gmap string string :=
    <["status" := if afk then "afk" else "not-afk"]>
      (<["app" := "afk"]> {["title" := "Idle time"]}) in
  let e := {| timestamp := timestamp;
              duration := default 0 duration;
              data := data |} in
  let pulsetime :=
    Settings.timeout (settings self) + Settings.poll_time (settings self) in
  emit (Heartbeat (bucketname self) e pulsetime true).

Section Loop.

Variable system : platform.
Variable self : t.

(** The body of the [try] in [heartbeat_loop]. *)
Definition loop_body (env : cycle_env) : M ctl :=
  if parent_died system (ppid env)
  then
    emit (Log INFO "afkwatcher stopped because parent process died");;
    ret Break
  else
    let now := now env in
    seconds_since_input <- seconds_since_last_input system (os_idle env);;
    let last_input := now - timedelta seconds_since_input in
    emit (LogSeconds DEBUG "Seconds since last input: " seconds_since_input);;
    afk <- get_afk;;
    (if afk && Qlt_bool seconds_since_input (Settings.timeout (settings self))
     then
       emit (Log INFO "No longer AFK");;
       ping self false last_input None;;
       set_afk false;;
       ping self false (last_input + td1ms) None
     else if negb afk
             && Qle_bool (Settings.timeout (settings self)) seconds_since_input
     then
       emit (Log INFO "Became AFK");;
       ping self true last_input None;;
       set_afk true;;
       ping self true now None
     else
       if afk then ping self true now None
       else ping self false last_input None);;
    sleep (Settings.poll_time (settings self)) (interrupt env);;
    ret Continue.

(** One iteration of [while True]: the body under its two handlers. *)
Definition iteration (env : cycle_env) (w : world) : ctl * world :=
  match loop_body env w with
  | (inr c, w') => (c, w')
  | (inl KeyboardInterrupt, w') =>
      (Break,
       snd (emit (Log INFO "sd-watcher-afk stopped by keyboard interrupt") w'))
  | (inl e, w') =>
      (Break,
       snd (emit (Log ERROR ("Unexpected error occurred: " +:+ str e)) w'))
  end.

(** [while True] on the iterations [envs], from the world [w]. *)
Fixpoint while_true (envs : list cycle_env) (w : world)
    : run_status * world :=
  match envs with
  | [] => (Running, w)
  | env :: rest =>
    match iteration env w with
    | (Break, w') => (Stopped, w')
    | (Continue, w') => while_true rest w'
    end
  end.

(** [heartbeat_loop(self)] *)
Definition heartbeat_loop (envs : list cycle_env) : run_status * world :=
  while_true envs {| afk := false; trace := [] |}.

End Loop.

End AFKWatcher.

(** ** Reading traces *)

(** The heartbeats of a trace, in order: event and pulsetime. *)
Fixpoint heartbeats (tr : list effect) : list (Event * Q) :=
  match tr with
  | [] => []
  | Heartbeat _ e pulsetime _ :: rest => (e, pulsetime) :: heartbeats rest
  | _ :: rest => heartbeats rest
  end.

(** The status a heartbeat carries. *)
Definition status (h : Event * Q) : option string := data (fst h) !! "status".

Definition status_of (afk : bool) : string := if afk then "afk" else "not-afk".

(** A world with nothing emitted yet. *)
Definition fresh (afk : bool) : world := {| afk := afk; trace := [] |}.

(** What the probe hands to the loop in the iteration on [env]: the idle
    seconds or the exception it raises. *)
Definition probed (system : platform) (env : cycle_env) : exn + Q :=
  fst (seconds_since_last_input system (os_idle env) (fresh false)).

(** The instant a heartbeat is stamped with. *)
Definition stamp (h : Event * Q) : Q := timestamp (fst h).

(** What the iteration on [env] from [w] added to the trace. *)
Definition emitted (system : platform) (self : AFKWatcher.t)
    (env : cycle_env) (w : world) : list effect :=
  drop (length (trace w)) (trace (snd (AFKWatcher.iteration system self env w))).

(** The heartbeat [ping] sends for [afk] at [timestamp], as [heartbeats]
    shows it. *)
Definition ping_record (self : AFKWatcher.t) (afk : bool) (timestamp : Q)
    : Event * Q :=
  ({| timestamp := timestamp;
      duration := 0;
      data := <["status" := status_of afk]>
                (<["app" := "afk"]> {["title" := "Idle time"]}) |},
   Settings.timeout (AFKWatcher.settings self)
   + Settings.poll_time (AFKWatcher.settings self)).

(** What the loop on [envs] from [w] added to the trace. *)
Definition run_emitted (system : platform) (self : AFKWatcher.t)
    (envs : list cycle_env) (w : world) : list effect :=
  drop (length (trace w))
    (trace (snd (AFKWatcher.while_true system self envs w))).

(** A heartbeat is sent the way [ping] sends it when called without a
    duration: to the watcher's bucket, with duration 0, pulsetime
    [timeout + poll_time], queued.  Other effects are not concerned. *)
Definition well_sent (self : AFKWatcher.t) (x : effect) : Prop :=
  match x with
  | Heartbeat bucket e pulsetime queued =>
      bucket = AFKWatcher.bucketname self
      /\ duration e = 0
      /\ pulsetime = Settings.timeout (AFKWatcher.settings self)
                     + Settings.poll_time (AFKWatcher.settings self)
      /\ queued = true
  | _ => True
  end.

(** The idle seconds the probe returns in [env] (0 when it raises). *)
Definition idle_seconds (system : platform) (env : cycle_env) : Q :=
  match probed system env with
  | inr v => v
  | inl _ => 0
  end.

(** How the loop classifies the iteration on [env]: afk ([true]) when the
    probed idle seconds reach the timeout, not-afk ([false]) when they do
    not; nothing when the probe is not called or raises. *)
Definition classification (system : platform) (self : AFKWatcher.t)
    (env : cycle_env) : option bool :=
  if parent_died system (ppid env) then None
  else match probed system env with
       | inr v => Some (Qle_bool (Settings.timeout (AFKWatcher.settings self)) v)
       | inl _ => None
       end.

(** From one iteration to the next the clock does not go back and the idle
    seconds grow by at most the time elapsed. *)
Fixpoint clock_consistent (system : platform) (envs : list cycle_env) : Prop :=
  match envs with
  | env1 :: rest =>
    match rest with
    | env2 :: _ =>
        now env1 <= now env2
        /\ idle_seconds system env2 - idle_seconds system env1
           <= now env2 - now env1
    | [] => True
    end /\ clock_consistent system rest
  | [] => True
  end.

(** An optional number that [or] skips: [None] or zero. *)
Definition falsy (a : option Q) : bool :=
  match a with
  | Some q => negb (Qtruthy q)
  | None => true
  end.

(** ** Variations of an iteration *)

(** The iteration [env] with nothing delivered during its sleep. *)
Definition uninterrupted (env : cycle_env) : cycle_env :=
  {| ppid := ppid env; now := now env; os_idle := os_idle env;
     interrupt := None |}.

(** The iteration [env] with another parent pid. *)
Definition with_ppid (p : Z) (env : cycle_env) : cycle_env :=
  {| ppid := p; now := now env; os_idle := os_idle env;
     interrupt := interrupt env |}.

(** The iteration [env] with another outcome of the idle query. *)
Definition with_os_idle (r : exn + Q) (env : cycle_env) : cycle_env :=
  {| ppid := ppid env; now := now env; os_idle := r;
     interrupt := interrupt env |}.

(** The record an [except] clause of the loop writes for [e]. *)
Definition handler_record (e : exn) : effect :=
  if is_Exception e
  then Log ERROR ("Unexpected error occurred: " +:+ str e)
  else Log INFO "sd-watcher-afk stopped by keyboard interrupt".

(** A heartbeat effect is one [ping] produces. *)
Definition from_ping (self : AFKWatcher.t) (x : effect) : Prop :=
  match x with
  | Heartbeat bucket e pulsetime queued =>
      exists afk timestamp,
        x = Heartbeat (AFKWatcher.bucketname self)
              (fst (ping_record self afk timestamp))
              (snd (ping_record self afk timestamp)) true
  | _ => True
  end.


(** ** The watcher's [run] *)

(** Calls on the client that [run] makes around the loop, and what the loop
    emits in between. *)
Inductive run_event : Type :=
| Emitted (x : effect)
| CreateBucket (bucket eventtype : string) (queued : bool)
| ClientEnter
| ClientExit.

(** [AFKWatcher.run(self)]: [startup] is what is delivered during the
    initial [sleep(1)], which no handler surrounds; the client's
    [create_bucket], [__enter__] and [__exit__] do not raise.  The context
    manager is left when the loop has stopped. *)
Definition AFKWatcher_run (system : platform) (self : AFKWatcher.t)
    (startup : option exn) (envs : list cycle_env)
    : (exn + run_status) * list run_event :=
  let started := [Emitted (Log INFO "sd-watcher-afk started")] in
  match startup with
  | Some e => (inl e, started)
  | None =>
    let eventtype := "afkstatus" in
    let (st, w) := AFKWatcher.heartbeat_loop system self envs in
    (inr st,
     started
     ++ [CreateBucket (AFKWatcher.bucketname self) eventtype true; ClientEnter]
     ++ map Emitted (trace w)
     ++ match st with Stopped => [ClientExit] | Running => [] end)
  end.

(** The bucket a run event addresses, if it addresses one. *)
Definition addressed_bucket (x : run_event) : option string :=
  match x with
  | Emitted (Heartbeat bucket _ _ _) => Some bucket
  | CreateBucket bucket _ _ => Some bucket
  | _ => None
  end.

Definition is_create_bucket (x : run_event) : bool :=
  match x with CreateBucket _ _ _ => true | _ => false end.

Definition is_heartbeat (x : run_event) : bool :=
  match x with Emitted (Heartbeat _ _ _ _) => true | _ => false end.

(** ** Input listeners ([listeners.py])

    The callbacks run on pynput's listener threads and [next_event] on the
    consumer's; here they are taken one at a time, and [new_event], a
    [threading.Event], is the boolean it holds.  Keys and buttons are the
    strings [str] gives for them; coordinates and scroll amounts are
    integers. *)

Module listeners.

Local Open Scope Z_scope.

(** What [EventFactory] relies on in its subclasses: the attributes
    [new_event] and [event_data], and the abstract [_reset_data]. *)
Class EventFactory (S : Type) : Type :=
  { new_event : S -> bool;
    with_new_event : bool -> S -> S;
    event_data : S -> gmap string Z;
    _reset_data : S -> S }.

(** [EventFactory.next_event(self)]: clear the new_event, copy the data, reset. *)
Definition next_event {S} `{EventFactory S} (self : S) : gmap string Z * S :=
  let self := with_new_event false self in
  let data := event_data self in
  (data, _reset_data self).

(** [EventFactory.has_new_event(self)] *)
Definition has_new_event {S} `{EventFactory S} (self : S) : bool :=
  new_event self.

(** [d[key] += n] on a [defaultdict(int)]. *)
Definition add_to (key : string) (n : Z) (d : gmap string Z) : gmap string Z :=
  <[key := default 0 (d !! key) + n]> d.

Module KeyboardListener.

Record t : Type := { new_event : bool; event_data : gmap string Z }.

(** [KeyboardListener._reset_data(self)] *)
Definition _reset_data (self : t) : t :=
  {| new_event := new_event self; event_data := {["presses" := 0]} |}.

(** [KeyboardListener.__init__(self)] *)
Definition __init__ : t := _reset_data {| new_event := false; event_data := ∅ |}.

(** [on_press(self, key)]: the counter lives in a plain dict, so a missing
    entry raises [KeyError], which the handler logs. *)
Definition on_press (key : string) (self : t) : t * list effect :=
  let pressed := Log DEBUG ("Key pressed: " +:+ key) in
  match event_data self !! "presses" with
  | Some n =>
      ({| new_event := true; event_data := <["presses" := n + 1]> (event_data self) |},
       [pressed])
  | None =>
      (self,
       [pressed; Log ERROR ("Error in on_press: " +:+ str (KeyError "presses"))])
  end.

(** [on_release(self, key)] *)
Definition on_release (key : string) (self : t) : t * list effect := (self, []).

End KeyboardListener.

#[global] Instance KeyboardListener_EventFactory
    : EventFactory KeyboardListener.t :=
  {| new_event := KeyboardListener.new_event;
     with_new_event := fun b self =>
       {| KeyboardListener.new_event := b;
          KeyboardListener.event_data := KeyboardListener.event_data self |};
     event_data := KeyboardListener.event_data;
     _reset_data := KeyboardListener._reset_data |}.

Module MouseListener.

Record t : Type :=
  { new_event : bool; event_data : gmap string Z; pos : option (Z * Z) }.

(** [MouseListener._reset_data(self)]: a fresh [defaultdict(int)] updated
    with the five event_data at zero. *)
Definition _reset_data (self : t) : t :=
  {| new_event := new_event self;
     event_data := <["clicks" := 0]> (<["deltaX" := 0]> (<["deltaY" := 0]>
                   (<["scrollX" := 0]> (<["scrollY" := 0]> ∅))));
     pos := pos self |}.

(** [MouseListener.__init__(self)] *)
Definition __init__ : t :=
  let self := _reset_data {| new_event := false; event_data := ∅; pos := None |} in
  {| new_event := new_event self; event_data := event_data self; pos := None |}.

(** [on_move(self, x, y)]; on integers nothing in the [try] raises. *)
Definition on_move (x y : Z) (self : t) : t * list effect :=
  let new_pos := (x, y) in
  match pos self with
  | None =>
      ({| new_event := new_event self; event_data := event_data self; pos := Some new_pos |},
       [])
  | Some old_pos =>
      let deltaX := fst new_pos - fst old_pos in
      let deltaY := snd new_pos - snd old_pos in
      let self :=
        if negb (deltaX =? 0) || negb (deltaY =? 0)
        then {| new_event := true;
                event_data := add_to "deltaY" (Z.abs deltaY)
                              (add_to "deltaX" (Z.abs deltaX) (event_data self));
                pos := pos self |}
        else self in
      ({| new_event := new_event self; event_data := event_data self; pos := Some new_pos |},
       [Log DEBUG ("Mouse moved to: " +:+ pretty x +:+ ", " +:+ pretty y)])
  end.

(** [on_click(self, x, y, button, pressed)] *)
Definition on_click (x y : Z) (button : string) (pressed : bool) (self : t)
    : t * list effect :=
  if pressed
  then ({| new_event := true;
           event_data := add_to "clicks" 1 (event_data self);
           pos := pos self |},
        [Log DEBUG ("Mouse clicked at: " +:+ pretty x +:+ ", " +:+ pretty y
                    +:+ ", button: " +:+ button)])
  else (self, []).

(** [on_scroll(self, x, y, scroll_x, scroll_y)] *)
Definition on_scroll (x y scroll_x scroll_y : Z) (self : t)
    : t * list effect :=
  ({| new_event := true;
      event_data := add_to "scrollY" (Z.abs scroll_y)
                    (add_to "scrollX" (Z.abs scroll_x) (event_data self));
      pos := pos self |},
   [Log DEBUG ("Mouse scrolled at: " +:+ pretty x +:+ ", " +:+ pretty y
               +:+ ", scroll: (" +:+ pretty scroll_x +:+ ", "
               +:+ pretty scroll_y +:+ ")")]).

End MouseListener.

#[global] Instance MouseListener_EventFactory : EventFactory MouseListener.t :=
  {| new_event := MouseListener.new_event;
     with_new_event := fun b self =>
       {| MouseListener.new_event := b;
          MouseListener.event_data := MouseListener.event_data self;
          MouseListener.pos := MouseListener.pos self |};
     event_data := MouseListener.event_data;
     _reset_data := MouseListener._reset_data |}.

(** *** What happens to a listener, in order *)

(** The callbacks pynput makes on a keyboard listener. *)
Inductive key_input : Type :=
| Press (key : string)
| Release (key : string).

Definition key_callback (i : key_input) (self : KeyboardListener.t)
    : KeyboardListener.t * list effect :=
  match i with
  | Press key => KeyboardListener.on_press key self
  | Release key => KeyboardListener.on_release key self
  end.

(** The callbacks, or the consumer calling [next_event]. *)
Inductive key_action : Type :=
| KeyInput (i : key_input)
| TakeKeys.

Definition key_step (sl : KeyboardListener.t * list effect) (a : key_action)
    : KeyboardListener.t * list effect :=
  match a with
  | KeyInput i =>
      let (self, out) := key_callback i (fst sl) in (self, snd sl ++ out)
  | TakeKeys => (snd (next_event (fst sl)), snd sl)
  end.

(** The listener and the log after the actions [l]. *)
Definition key_run (l : list key_action) (self : KeyboardListener.t)
    : KeyboardListener.t * list effect :=
  fold_left key_step l (self, []).

(** The listener after the callbacks [l] alone. *)
Definition key_feed (l : list key_input) (self : KeyboardListener.t)
    : KeyboardListener.t :=
  fst (key_run (map KeyInput l) self).

Definition presses_in (l : list key_input) : Z :=
  Z.of_nat (length (List.filter (fun i => match i with Press _ => true
                                                  | Release _ => false end) l)).

(** The data of a keyboard listener is the one counter, not negative, and
    at zero while the flag is down. *)
Definition keyboard_ok (self : KeyboardListener.t) : Prop :=
  exists n,
    KeyboardListener.event_data self = {["presses" := n]}
    /\ 0 <= n
    /\ (KeyboardListener.new_event self = false -> n = 0).

Definition is_debug (x : effect) : Prop :=
  match x with Log DEBUG _ => True | _ => False end.

(** The callbacks pynput makes on a mouse listener. *)
Inductive mouse_input : Type :=
| Move (x y : Z)
| Click (x y : Z) (button : string) (pressed : bool)
| Scroll (x y scroll_x scroll_y : Z).

Definition mouse_callback (i : mouse_input) (self : MouseListener.t)
    : MouseListener.t * list effect :=
  match i with
  | Move x y => MouseListener.on_move x y self
  | Click x y button pressed => MouseListener.on_click x y button pressed self
  | Scroll x y scroll_x scroll_y =>
      MouseListener.on_scroll x y scroll_x scroll_y self
  end.

Inductive mouse_action : Type :=
| MouseInput (i : mouse_input)
| TakeMouse.

Definition mouse_step (self : MouseListener.t) (a : mouse_action)
    : MouseListener.t :=
  match a with
  | MouseInput i => fst (mouse_callback i self)
  | TakeMouse => snd (next_event self)
  end.

(** The listener after the actions [l]. *)
Definition mouse_run (l : list mouse_action) (self : MouseListener.t)
    : MouseListener.t :=
  fold_left mouse_step l self.

(** The listener after the callbacks [l] alone. *)
Definition mouse_feed (l : list mouse_input) (self : MouseListener.t)
    : MouseListener.t :=
  mouse_run (map MouseInput l) self.

(** A counter as a [defaultdict(int)] reads it. *)
Definition counter (key : string) (d : gmap string Z) : Z :=
  default 0 (d !! key).

(** The distance along each axis that the moves of [l] cover, starting from
    the position [p] (none before the first move). *)
Fixpoint travelled (p : option (Z * Z)) (l : list mouse_input) : Z * Z :=
  match l with
  | [] => (0, 0)
  | Move x y :: rest =>
      let (dx, dy) := travelled (Some (x, y)) rest in
      match p with
      | Some (px, py) => (Z.abs (x - px) + dx, Z.abs (y - py) + dy)
      | None => (dx, dy)
      end
  | _ :: rest => travelled p rest
  end.

(** The button presses and the scroll amounts of [l]. *)
Fixpoint clicked (l : list mouse_input) : Z :=
  match l with
  | [] => 0
  | Click _ _ _ true :: rest => 1 + clicked rest
  | _ :: rest => clicked rest
  end.

Fixpoint scrolled (l : list mouse_input) : Z * Z :=
  match l with
  | [] => (0, 0)
  | Scroll _ _ sx sy :: rest =>
      let (tx, ty) := scrolled rest in (Z.abs sx + tx, Z.abs sy + ty)
  | _ :: rest => scrolled rest
  end.

(** Whether the callback [i], arriving with the pointer last seen at [p],
    raises the flag. *)
Definition flags (p : option (Z * Z)) (i : mouse_input) : bool :=
  match i with
  | Move x y =>
      match p with
      | Some (px, py) => negb (x =? px) || negb (y =? py)
      | None => false
      end
  | Click _ _ _ pressed => pressed
  | Scroll _ _ _ _ => true
  end.

(** What the callbacks [l], arriving with the pointer last seen at [p], add
    to the counter [key]. *)
Definition tally (key : string) (p : option (Z * Z)) (l : list mouse_input)
    : Z :=
  if decide (key = "clicks") then clicked l
  else if decide (key = "deltaX") then fst (travelled p l)
  else if decide (key = "deltaY") then snd (travelled p l)
  else if decide (key = "scrollX") then fst (scrolled l)
  else if decide (key = "scrollY") then snd (scrolled l)
  else 0.

(** The data of a mouse listener holds the five counters and nothing else,
    none of them negative, and all at zero while the flag is down. *)
Definition mouse_ok (self : MouseListener.t) : Prop :=
  dom (MouseListener.event_data self)
  = ({["clicks"; "deltaX"; "deltaY"; "scrollX"; "scrollY"]} : gset string)
  /\ (forall key, 0 <= counter key (MouseListener.event_data self))
  /\ (MouseListener.new_event self = false ->
      MouseListener.event_data self
      = MouseListener.event_data (MouseListener._reset_data self)).

End listeners.

(** Idle seconds that [timedelta] keeps as they are: a whole number of
    microseconds. *)
Definition whole_microseconds (v : Q) : Prop := timedelta v == v.

(** [stamped] is [exact] up to the rounding of [timedelta]: half a
    microsecond at most. *)
Definition within_half_microsecond (exact stamped : Q) : Prop :=
  exact - microsecond * (1 # 2) <= stamped
  /\ stamped <= exact + microsecond * (1 # 2).

(** [t] is not more than a microsecond before [s]. *)
Definition at_most_a_microsecond_back (s t : Q) : Prop := s - microsecond <= t.

(** ** Sample configurations and iterations *)

Module Sample.

(** The stock configuration: timeout 180 s, poll every 5 s. *)
Definition config : gmap string Q := <["timeout" := 180]> {["poll_time" := 5]}.

(** A configuration that sets both to zero. *)
Definition config_zero : gmap string Q :=
  <["timeout" := 0]> {["poll_time" := 0]}.

Definition no_args : Namespace :=
  {| args_timeout := None; args_poll_time := None |}.

Definition watcher : AFKWatcher.t :=
  {| AFKWatcher.settings := {| Settings.timeout := 180; Settings.poll_time := 5 |};
     AFKWatcher.bucketname := "sd-watcher-afk" |}.

Definition watcher_zero : AFKWatcher.t :=
  {| AFKWatcher.settings := {| Settings.timeout := 0; Settings.poll_time := 0 |};
     AFKWatcher.bucketname := "sd-watcher-afk" |}.

(** An iteration at instant [t] in which the idle query answers [idle]. *)
Definition at_ (t idle : Q) : cycle_env :=
  {| ppid := 4242; now := t; os_idle := inr idle; interrupt := None |}.

(** An iteration at instant [t] in which the idle query fails. *)
Definition failing (t : Q) : cycle_env :=
  {| ppid := 4242; now := t;
     os_idle := inl (OSError "event source unavailable");
     interrupt := None |}.

End Sample.

(** ** More samples *)

Module Sample2.

(** Timeout 5 s with a poll time of -1 s, which the constructor accepts. *)
Definition watcher_negative_poll : AFKWatcher.t :=
  {| AFKWatcher.settings :=
       {| Settings.timeout := 5; Settings.poll_time := -1 |};
     AFKWatcher.bucketname := "sd-watcher-afk" |}.

(** An iteration whose parent process is gone. *)
Definition orphaned (t idle : Q) : cycle_env :=
  {| ppid := 1; now := t; os_idle := inr idle; interrupt := None |}.

(** An iteration whose sleep is cut short by Ctrl-C. *)
Definition interrupted (t idle : Q) : cycle_env :=
  {| ppid := 4242; now := t; os_idle := inr idle;
     interrupt := Some KeyboardInterrupt |}.

(** A pointer seen at (10, 10), with cleared counters. *)
Definition mouse_at_10_10 : listeners.MouseListener.t :=
  {| listeners.MouseListener.new_event := false;
     listeners.MouseListener.event_data :=
       listeners.MouseListener.event_data listeners.MouseListener.__init__;
     listeners.MouseListener.pos := Some (10, 10)%Z |}.

End Sample2.

(** * Properties *)

(** ** Numbers *)

Lemma Qlt_bool_iff (a b : Q) : Qlt_bool a b = true <-> a < b.
Proof.
  unfold Qlt_bool. rewrite negb_true_iff.
  destruct (Qle_bool b a) eqn:E.
  - apply Qle_bool_iff in E. split; [discriminate | lra].
  - split; [intros _ | reflexivity].
    destruct (Qlt_le_dec a b) as [H | H]; [exact H |].
    apply Qle_bool_iff in H. congruence.
Qed.

Lemma Qle_bool_false (a b : Q) : Qle_bool a b = false <-> b < a.
Proof.
  rewrite <- Qlt_bool_iff. unfold Qlt_bool.
  destruct (Qle_bool a b); simpl; split; congruence.
Qed.

Lemma Qtruthy_false (q : Q) : Qtruthy q = false <-> q == 0.
Proof.
  unfold Qtruthy. rewrite negb_false_iff. apply Qeq_bool_iff.
Qed.

(** Rounding moves a number by at most one half. *)
Lemma round_half_even_near (x : Q) :
  x - (1 # 2) <= inject_Z (round_half_even x)
  /\ inject_Z (round_half_even x) <= x + (1 # 2).
Proof.
  unfold round_half_even.
  pose proof (Qfloor_le x) as Hlo. pose proof (Qlt_floor x) as Hhi.
  rewrite inject_Z_plus in Hhi. change (inject_Z 1) with 1 in Hhi.
  destruct (Qcompare_spec (x - inject_Z (Qfloor x)) (1 # 2)) as [He | Hl | Hg].
  - destruct (Z.even (Qfloor x)); rewrite ?inject_Z_plus;
      change (inject_Z 1) with 1; lra.
  - lra.
  - rewrite inject_Z_plus. change (inject_Z 1) with 1. lra.
Qed.

Lemma inject_Z_between (n r : Z) :
  inject_Z n - 1 < inject_Z r -> inject_Z r < inject_Z n + 1 -> r = n.
Proof. unfold Qlt. simpl. lia. Qed.

Lemma inject_Z_above (c r : Z) :
  inject_Z c - 1 < inject_Z r -> inject_Z c <= inject_Z r.
Proof. unfold Qlt, Qle. simpl. lia. Qed.

(** An integer is its own rounding. *)
Lemma round_half_even_integer (x : Q) (n : Z) :
  x == inject_Z n -> round_half_even x = n.
Proof.
  intros Hx. destruct (round_half_even_near x) as [Hlo Hhi].
  apply inject_Z_between; lra.
Qed.

(** [timedelta] moves its argument by at most half a microsecond. *)
Lemma timedelta_near (v : Q) :
  v - microsecond * (1 # 2) <= timedelta v
  /\ timedelta v <= v + microsecond * (1 # 2).
Proof.
  unfold timedelta, microsecond.
  destruct (round_half_even_near (v * 1000000)) as [Hlo Hhi]. lra.
Qed.

(** Whole numbers of microseconds are kept. *)
Lemma timedelta_whole (v : Q) (n : Z) :
  v == inject_Z n * microsecond -> timedelta v == v.
Proof.
  intros Hv. unfold timedelta.
  rewrite (round_half_even_integer (v * 1000000) n); [by symmetry |].
  unfold microsecond in Hv. lra.
Qed.

Lemma timedelta_nonneg (v : Q) : 0 <= v -> 0 <= timedelta v.
Proof.
  intros Hv. unfold timedelta, microsecond.
  destruct (round_half_even_near (v * 1000000)) as [Hlo _].
  pose proof (inject_Z_above 0 (round_half_even (v * 1000000))) as H.
  change (inject_Z 0) with 0 in H. lra.
Qed.

Lemma timedelta_positive (v : Q) :
  microsecond <= v -> microsecond <= timedelta v.
Proof.
  unfold timedelta, microsecond. intros Hv.
  destruct (round_half_even_near (v * 1000000)) as [Hlo _].
  pose proof (inject_Z_above 1 (round_half_even (v * 1000000))) as H.
  change (inject_Z 1) with 1 in H. lra.
Qed.

Lemma last_input_near (t v : Q) :
  within_half_microsecond (t - v) (t - timedelta v).
Proof.
  unfold within_half_microsecond.
  destruct (timedelta_near v) as [Hlo Hhi]. split; lra.
Qed.

(** ** Traces *)

Lemma heartbeats_app (a b : list effect) :
  heartbeats (a ++ b) = heartbeats a ++ heartbeats b.
Proof.
  induction a as [| x a IH]; simpl; [reflexivity |].
  destruct x; simpl; rewrite IH; reflexivity.
Qed.

Lemma status_ping_record self b ts :
  status (ping_record self b ts) = Some (status_of b).
Proof. destruct b; reflexivity. Qed.

Lemma stamp_ping_record self b ts : stamp (ping_record self b ts) = ts.
Proof. reflexivity. Qed.

(** The probe only prints: its result does not depend on the world it is
    called in, it leaves [afk] alone and sends no heartbeat. *)
Lemma probe_frame system env w :
  exists printed,
    seconds_since_last_input system (os_idle env) w
    = (probed system env, {| afk := afk w; trace := trace w ++ printed |})
    /\ heartbeats printed = []
    /\ (forall e, probed system env = inl e -> printed = []).
Proof.
  unfold probed, seconds_since_last_input, macos.seconds_since_last_input,
    try_except_Exception, lift, bind, emit, ret.
  destruct w as [a tr].
  destruct system, (os_idle env) as [[] | v]; simpl;
    try (exists []; rewrite app_nil_r; split; [reflexivity | split; [reflexivity | intros; reflexivity]]);
    eexists [_]; (split; [reflexivity | split; [reflexivity | intros; discriminate]]).
Qed.

(** ** One iteration *)

Section Cycle.

Context (system : platform) (self : AFKWatcher.t).

Abbreviation timeout := (Settings.timeout (AFKWatcher.settings self)).
Abbreviation poll_time := (Settings.poll_time (AFKWatcher.settings self)).
Abbreviation iteration := (AFKWatcher.iteration system self).
Abbreviation while_true := (AFKWatcher.while_true system self).

Ltac unfold_body :=
  unfold AFKWatcher.iteration, AFKWatcher.loop_body, AFKWatcher.ping, sleep,
    Qlt_bool, bind, ret, raise, emit, get_afk, set_afk.

(** An iteration only appends to the trace. *)
Lemma iteration_frame env w :
  trace (snd (iteration env w)) = trace w ++ emitted system self env w.
Proof.
  unfold emitted.
  destruct (probe_frame system env w) as (printed & Hp & _ & _).
  unfold_body.
  destruct (parent_died system (ppid env)); simpl.
  { rewrite drop_app_length. reflexivity. }
  rewrite Hp. destruct w as [a tr]; simpl.
  destruct (probed system env) as [[] | v]; simpl;
    try (rewrite <- ?app_assoc, drop_app_length; reflexivity).
  destruct a, (Qle_bool timeout v), (Qle_bool 0 poll_time),
    (interrupt env) as [[] |]; simpl;
    rewrite <- ?app_assoc, drop_app_length; reflexivity.
Qed.

(** What an iteration that gets [v] from the probe sends, and the state it
    leaves: the classification of [v]. *)
Lemma iteration_probed env w v :
  parent_died system (ppid env) = false ->
  probed system env = inr v ->
  heartbeats (emitted system self env w)
  = match afk w, Qle_bool timeout v with
    | true, false => [ping_record self false (now env - timedelta v);
                      ping_record self false (now env - timedelta v + td1ms)]
    | false, true => [ping_record self true (now env - timedelta v);
                      ping_record self true (now env)]
    | true, true => [ping_record self true (now env)]
    | false, false => [ping_record self false (now env - timedelta v)]
    end
  /\ afk (snd (iteration env w)) = Qle_bool timeout v.
Proof.
  intros Hdied Hv. unfold emitted.
  destruct (probe_frame system env w) as (printed & Hp & Hh & _).
  unfold_body. rewrite Hdied, Hp, Hv. destruct w as [a tr]; simpl.
  destruct a, (Qle_bool timeout v), (Qle_bool 0 poll_time),
    (interrupt env) as [[] |]; simpl;
    rewrite <- ?app_assoc, drop_app_length, heartbeats_app, Hh;
    split; reflexivity.
Qed.

(** When the probe is not called, or raises, the iteration ends the loop,
    sends nothing and leaves [afk] alone. *)
Lemma iteration_no_value env w :
  parent_died system (ppid env) = true
  \/ (exists e, probed system env = inl e) ->
  fst (iteration env w) = Break
  /\ heartbeats (emitted system self env w) = []
  /\ afk (snd (iteration env w)) = afk w.
Proof.
  intros H. unfold emitted.
  destruct (probe_frame system env w) as (printed & Hp & Hh & Hnil).
  unfold_body.
  destruct (parent_died system (ppid env)); simpl.
  { rewrite drop_app_length. repeat split; reflexivity. }
  destruct H as [H | [e He]]; [discriminate |].
  rewrite Hp, He. rewrite (Hnil e He), app_nil_r.
  destruct w as [a tr], e; simpl;
    rewrite drop_app_length; repeat split; reflexivity.
Qed.

(** C1 (amended).  In an iteration that starts not-afk and gets idle seconds
    [v >= timeout] from the probe, with [now] and [last_input] instants a
    datetime can hold, exactly two heartbeats are sent, both with status
    "afk", the first stamped [last_input = now - timedelta(seconds=v)] and
    the second [now]; the state afterwards is afk.  The rounding moves
    [last_input] by half a microsecond at most.  The second instant is
    later than the first when [v] (or the timeout) is at least one
    microsecond, and not earlier when [v >= 0]. *)
Theorem became_afk_cycle env w v :
  parent_died system (ppid env) = false ->
  probed system env = inr v ->
  representable (now env) ->
  representable (now env - timedelta v) ->
  afk w = false ->
  timeout <= v ->
  exists h1 h2,
    heartbeats (emitted system self env w) = [h1; h2]
    /\ status h1 = Some "afk" /\ status h2 = Some "afk"
    /\ stamp h1 = now env - timedelta v /\ stamp h2 = now env
    /\ within_half_microsecond (now env - v) (stamp h1)
    /\ (microsecond <= v -> stamp h1 < stamp h2)
    /\ (microsecond <= timeout -> stamp h1 < stamp h2)
    /\ (0 <= v -> stamp h1 <= stamp h2)
    /\ afk (snd (iteration env w)) = true.
Proof.
  intros Hdied Hv _ _ Hafk Hle.
  destruct (iteration_probed env w v Hdied Hv) as [Hhb Hst].
  apply Qle_bool_iff in Hle. rewrite Hafk, Hle in Hhb. rewrite Hle in Hst.
  apply Qle_bool_iff in Hle.
  exists (ping_record self true (now env - timedelta v)),
    (ping_record self true (now env)).
  rewrite !stamp_ping_record.
  split; [exact Hhb |]. split; [reflexivity |]. split; [reflexivity |].
  split; [reflexivity |]. split; [reflexivity |].
  split; [apply last_input_near |].
  split; [| split; [| split; [| exact Hst]]].
  - intros H. apply timedelta_positive in H. unfold microsecond in H. lra.
  - intros H. assert (H' : microsecond <= v) by lra.
    apply timedelta_positive in H'. unfold microsecond in H'. lra.
  - intros H. apply timedelta_nonneg in H. lra.
Qed.

(** C2.  In an iteration that starts afk and gets idle seconds
    [v < timeout] from the probe, exactly two heartbeats are sent, both with
    status "not-afk", the first stamped
    [last_input = now - timedelta(seconds=v)], which the rounding to
    microseconds moves by half a microsecond at most, and the second exactly
    one millisecond, a thousandth of a second, later; the state afterwards
    is not-afk. *)
Theorem no_longer_afk_cycle env w v :
  parent_died system (ppid env) = false ->
  probed system env = inr v ->
  afk w = true ->
  v < timeout ->
  exists h1 h2,
    heartbeats (emitted system self env w) = [h1; h2]
    /\ status h1 = Some "not-afk" /\ status h2 = Some "not-afk"
    /\ stamp h1 = now env - timedelta v
    /\ within_half_microsecond (now env - v) (stamp h1)
    /\ stamp h2 = stamp h1 + td1ms
    /\ stamp h2 = stamp h1 + (1 # 1000)
    /\ stamp h2 - stamp h1 == 1000 * microsecond
    /\ stamp h1 < stamp h2
    /\ afk (snd (iteration env w)) = false.
Proof.
  intros Hdied Hv Hafk Hlt.
  destruct (iteration_probed env w v Hdied Hv) as [Hhb Hst].
  apply Qle_bool_false in Hlt. rewrite Hafk, Hlt in Hhb. rewrite Hlt in Hst.
  exists (ping_record self false (now env - timedelta v)),
    (ping_record self false (now env - timedelta v + td1ms)).
  rewrite !stamp_ping_record.
  split; [exact Hhb |]. split; [reflexivity |]. split; [reflexivity |].
  split; [reflexivity |]. split; [apply last_input_near |].
  split; [reflexivity |]. split; [reflexivity |].
  split; [unfold td1ms, microsecond; lra |].
  split; [unfold td1ms; lra | exact Hst].
Qed.



(** When the probe raises, the iteration ends the loop whatever would
    follow, no heartbeat is sent in it, and the only thing emitted is the
    log record of the reason. *)
Theorem probe_raises_stops env w e rest :
  parent_died system (ppid env) = false ->
  probed system env = inl e ->
  fst (iteration env w) = Break
  /\ while_true (env :: rest) w = (Stopped, snd (iteration env w))
  /\ heartbeats (emitted system self env w) = []
  /\ emitted system self env w
     = [if is_Exception e
        then Log ERROR ("Unexpected error occurred: " +:+ str e)
        else Log INFO "sd-watcher-afk stopped by keyboard interrupt"].
Proof.
  intros Hdied He.
  destruct (iteration_no_value env w) as (Hbrk & Hhb & _);
    [right; by exists e |].
  split; [exact Hbrk |]. split.
  { simpl. destruct (iteration env w) as [c w']. simpl in Hbrk. by subst c. }
  split; [exact Hhb |].
  unfold emitted.
  destruct (probe_frame system env w) as (printed & Hp & _ & Hnil).
  unfold_body. rewrite Hdied, Hp, He, (Hnil e He), app_nil_r.
  destruct w as [a tr], e; simpl; by rewrite drop_app_length.
Qed.

End Cycle.

(** ** The loop *)

Section Run.

Context (system : platform) (self : AFKWatcher.t).

Abbreviation timeout := (Settings.timeout (AFKWatcher.settings self)).
Abbreviation poll_time := (Settings.poll_time (AFKWatcher.settings self)).
Abbreviation iteration := (AFKWatcher.iteration system self).
Abbreviation while_true := (AFKWatcher.while_true system self).
Abbreviation heartbeat_loop := (AFKWatcher.heartbeat_loop system self).

Lemma while_true_cons env rest w :
  while_true (env :: rest) w
  = match fst (iteration env w) with
    | Break => (Stopped, snd (iteration env w))
    | Continue => while_true rest (snd (iteration env w))
    end.
Proof. simpl. by destruct (iteration env w) as [[] w']. Qed.

(** The loop only appends to the trace. *)
Lemma while_true_frame envs w :
  trace (snd (while_true envs w)) = trace w ++ run_emitted system self envs w.
Proof.
  unfold run_emitted. revert w.
  induction envs as [| env rest IH]; intros w.
  - simpl. by rewrite drop_all, app_nil_r.
  - rewrite while_true_cons.
    destruct (fst (iteration env w)); simpl.
    + rewrite IH, iteration_frame, <- app_assoc. by rewrite drop_app_length.
    + rewrite iteration_frame. by rewrite drop_app_length.
Qed.

Lemma run_emitted_cons env rest w :
  run_emitted system self (env :: rest) w
  = emitted system self env w
    ++ match fst (iteration env w) with
       | Break => []
       | Continue => run_emitted system self rest (snd (iteration env w))
       end.
Proof.
  unfold run_emitted at 1. rewrite while_true_cons.
  destruct (fst (iteration env w)); simpl.
  - rewrite while_true_frame, iteration_frame, <- app_assoc.
    by rewrite drop_app_length.
  - rewrite iteration_frame, app_nil_r. by rewrite drop_app_length.
Qed.

Lemma no_heartbeat_well_sent (l : list effect) :
  heartbeats l = [] -> Forall (well_sent self) l.
Proof.
  induction l as [| x l IH]; intros H; [constructor |].
  destruct x; simpl in H; try discriminate; constructor; simpl; auto.
Qed.

Lemma emitted_well_sent env w : Forall (well_sent self) (emitted system self env w).
Proof.
  unfold emitted.
  destruct (probe_frame system env w) as (printed & Hp & Hh & _).
  apply no_heartbeat_well_sent in Hh.
  unfold AFKWatcher.iteration, AFKWatcher.loop_body, AFKWatcher.ping, sleep,
    Qlt_bool, bind, ret, raise, emit, get_afk, set_afk.
  destruct (parent_died system (ppid env)); simpl.
  { rewrite drop_app_length. repeat constructor. }
  rewrite Hp. destruct w as [a tr]; simpl.
  destruct (probed system env) as [[] | v]; simpl;
    try (rewrite <- ?app_assoc, drop_app_length;
         apply Forall_app; split; [exact Hh | repeat constructor]).
  destruct a, (Qle_bool timeout v), (Qle_bool 0 poll_time),
    (interrupt env) as [[] |]; simpl;
    rewrite <- ?app_assoc, drop_app_length;
    (apply Forall_app; split; [exact Hh | repeat constructor]).
Qed.

(** C6.  [ping] sends one heartbeat to the watcher's bucket with pulsetime
    [timeout + poll_time] and, when no duration is passed, duration 0; and
    every heartbeat in the trace of a run, whatever the iterations and the
    branches taken, was sent that way. *)
Theorem heartbeats_well_sent :
  (forall b ts d w,
     exists e,
       AFKWatcher.ping self b ts d w
       = (inr tt,
          {| afk := afk w;
             trace := trace w
                      ++ [Heartbeat (AFKWatcher.bucketname self) e
                            (timeout + poll_time) true] |})
       /\ timestamp e = ts
       /\ duration e = default 0 d
       /\ data e !! "status" = Some (status_of b))
  /\ (forall envs,
        Forall (well_sent self) (trace (snd (heartbeat_loop envs)))).
Proof.
  split.
  { intros b ts d w. eexists. split; [reflexivity |].
    simpl. by destruct b. }
  intros envs.
  unfold AFKWatcher.heartbeat_loop. rewrite while_true_frame. simpl.
  generalize {| afk := false; trace := [] |}.
  induction envs as [| env rest IH]; intros w.
  - unfold run_emitted. simpl. rewrite drop_all. constructor.
  - rewrite run_emitted_cons. apply Forall_app. split.
    + apply emitted_well_sent.
    + destruct (fst (iteration env w)); [apply IH | constructor].
Qed.

(** When every iteration of [envs] is classified as the current state [b]
    and the loop is still running when the last one begins, each iteration
    sends the one heartbeat of that state. *)
Lemma steady_run_heartbeats (b : bool) envs w :
  afk w = b ->
  Forall (fun env => classification system self env = Some b) envs ->
  fst (while_true (removelast envs) w) = Running ->
  heartbeats (run_emitted system self envs w)
  = map (fun env =>
           ping_record self b
             (if b then now env
              else now env - timedelta (idle_seconds system env))) envs
  /\ afk (snd (while_true envs w)) = b.
Proof.
  revert w. induction envs as [| env rest IH]; intros w Hafk Hcl Hrun.
  - unfold run_emitted. simpl. by rewrite drop_all.
  - inversion Hcl as [| ? ? Hc Hrest]; subst.
    unfold classification in Hc.
    destruct (parent_died system (ppid env)) eqn:Hdied; [discriminate |].
    destruct (probed system env) as [e | v] eqn:Hv; [discriminate |].
    injection Hc as Hc.
    destruct (iteration_probed system self env w v Hdied Hv) as [Hhb Hst].
    rewrite Hc in Hhb, Hst.
    assert (Hone : heartbeats (emitted system self env w)
                   = [ping_record self (afk w)
                        (if afk w then now env
                         else now env - timedelta (idle_seconds system env))]).
    { unfold idle_seconds. rewrite Hv, Hhb. by destruct (afk w). }
    rewrite run_emitted_cons, heartbeats_app, Hone, while_true_cons.
    destruct rest as [| env' rest'].
    + simpl. destruct (fst (iteration env w)); simpl;
        unfold run_emitted; simpl; rewrite ?drop_all; auto.
    + change (removelast (env :: env' :: rest'))
        with (env :: removelast (env' :: rest')) in Hrun.
      rewrite while_true_cons in Hrun.
      destruct (fst (iteration env w)); [| discriminate].
      destruct (IH (snd (iteration env w)) Hst Hrest Hrun) as [IHhb IHst].
      rewrite IHhb. split; [reflexivity | exact IHst].
Qed.

Lemma clock_consistent_sorted (b : bool) envs :
  clock_consistent system envs ->
  b = true \/ Forall (fun env => whole_microseconds (idle_seconds system env)) envs ->
  Sorted Qle
    (map (fun env => if b then now env
                     else now env - timedelta (idle_seconds system env))
       envs).
Proof.
  induction envs as [| env1 rest IH]; intros Hc Hw; simpl; [constructor |].
  destruct Hc as [Hstep Hc]. constructor.
  { apply IH; [exact Hc |]. destruct Hw as [Hw | Hw]; [by left | right].
    by inversion Hw. }
  destruct rest as [| env2 rest]; simpl; constructor.
  destruct Hstep as [Hnow Hidle]. destruct Hw as [-> | Hw]; [exact Hnow |].
  destruct b; [exact Hnow |].
  inversion Hw as [| ? ? H1 Hw']; subst. inversion Hw' as [| ? ? H2 _]; subst.
  unfold whole_microseconds in H1, H2. lra.
Qed.

Lemma clock_consistent_nearly_sorted (b : bool) envs :
  clock_consistent system envs ->
  Sorted at_most_a_microsecond_back
    (map (fun env => if b then now env
                     else now env - timedelta (idle_seconds system env))
       envs).
Proof.
  induction envs as [| env1 rest IH]; intros Hc; simpl; [constructor |].
  destruct Hc as [Hstep Hc]. constructor; [by apply IH |].
  destruct rest as [| env2 rest]; simpl; constructor.
  destruct Hstep as [Hnow Hidle]. unfold at_most_a_microsecond_back.
  destruct b; [unfold microsecond; lra |].
  destruct (timedelta_near (idle_seconds system env1)) as [Hlo1 Hhi1].
  destruct (timedelta_near (idle_seconds system env2)) as [Hlo2 Hhi2].
  unfold microsecond in *. lra.
Qed.

(** C8 (amended).  A run of N iterations (any N) that are all classified as
    the current state (the loop still running when the last of them begins)
    sends exactly N heartbeats, all with the status of that state, stamped
    [now] when afk and [now - timedelta(seconds=idle)] when not, and leaves
    the state as it was.  When the clock does not go back and the idle
    seconds grow by at most the time elapsed from one iteration to the next,
    no stamp is more than a microsecond before the one it follows; the
    stamps are non-decreasing when the state is afk, or when the idle
    seconds are whole numbers of microseconds. *)
Theorem steady_run (b : bool) envs w :
  afk w = b ->
  Forall (fun env => classification system self env = Some b) envs ->
  fst (while_true (removelast envs) w) = Running ->
  clock_consistent system envs ->
  let hs := heartbeats (run_emitted system self envs w) in
  length hs = length envs
  /\ Forall (fun h => status h = Some (status_of b)) hs
  /\ map stamp hs
     = map (fun env => if b then now env
                       else now env - timedelta (idle_seconds system env)) envs
  /\ Sorted at_most_a_microsecond_back (map stamp hs)
  /\ (b = true
      \/ Forall (fun env => whole_microseconds (idle_seconds system env)) envs ->
      StronglySorted Qle (map stamp hs))
  /\ afk (snd (while_true envs w)) = b.
Proof.
  intros Hafk Hcl Hrun Hclock hs. subst hs.
  destruct (steady_run_heartbeats b envs w Hafk Hcl Hrun) as [Hhb Hst].
  rewrite Hhb. split; [by rewrite length_map |]. split.
  { apply Forall_map, Forall_forall. intros env _.
    apply status_ping_record. }
  rewrite map_map. simpl.
  split; [reflexivity |].
  split; [by apply clock_consistent_nearly_sorted |].
  split; [| exact Hst].
  intros Hw.
  apply Sorted_StronglySorted; [intros x y z; apply Qle_trans |].
  by apply clock_consistent_sorted.
Qed.

(** C9.  A run starts not-afk with nothing emitted: it is the loop started
    from that state on whatever iterations follow, and its first iteration
    is handled as one of a not-afk tracker: idle seconds below the timeout
    give the single "not-afk" heartbeat, idle seconds at or above it the
    pair of "afk" heartbeats. *)
Theorem run_starts_not_afk :
  snd (heartbeat_loop []) = {| afk := false; trace := [] |}
  /\ (forall envs, heartbeat_loop envs = while_true envs (fresh false))
  /\ (forall env v,
        parent_died system (ppid env) = false ->
        probed system env = inr v ->
        map status (heartbeats (trace (snd (heartbeat_loop [env]))))
        = if Qle_bool timeout v then [Some "afk"; Some "afk"]
          else [Some "not-afk"]).
Proof.
  split; [reflexivity |]. split; [reflexivity |].
  intros env v Hdied Hv.
  destruct (iteration_probed system self env (fresh false) v Hdied Hv)
    as [Hhb _].
  unfold emitted in Hhb. simpl in Hhb. rewrite drop_0 in Hhb.
  unfold AFKWatcher.heartbeat_loop. rewrite while_true_cons. fold (fresh false).
  assert (Hsnd : snd (match fst (iteration env (fresh false)) with
                      | Break => (Stopped, snd (iteration env (fresh false)))
                      | Continue => while_true [] (snd (iteration env (fresh false)))
                      end) = snd (iteration env (fresh false))).
  { by destruct (fst (iteration env (fresh false))). }
  rewrite Hsnd, Hhb. by destruct (Qle_bool timeout v).
Qed.

End Run.

(** ** Settings *)

(** C4.  Settings that were constructed satisfy [timeout >= poll_time], and
    so do those of a constructed watcher; when the timeout in force (the
    argument, or the configured value) is below the poll time in force, the
    constructor raises the assertion error, and so does the watcher's
    constructor: no watcher exists whose loop could be run. *)
Theorem settings_timeout_ge_poll_time
    (config_section : gmap string Q) (args : Namespace) :
  (forall s,
     Settings.__init__ config_section (args_timeout args) (args_poll_time args)
     = inr s ->
     Settings.poll_time s <= Settings.timeout s)
  /\ (forall name self,
        AFKWatcher.__init__ config_section args name = inr self ->
        Settings.poll_time (AFKWatcher.settings self)
        <= Settings.timeout (AFKWatcher.settings self))
  /\ (forall tv pv,
        py_or (args_timeout args) (getitem config_section "timeout") = inr tv ->
        py_or (args_poll_time args) (getitem config_section "poll_time")
        = inr pv ->
        tv < pv ->
        Settings.__init__ config_section (args_timeout args)
          (args_poll_time args)
        = inl (AssertionError assert_msg)
        /\ forall name,
             AFKWatcher.__init__ config_section args name
             = inl (AssertionError assert_msg)).
Proof.
  assert (Hinv : forall s,
            Settings.__init__ config_section (args_timeout args)
              (args_poll_time args) = inr s ->
            Settings.poll_time s <= Settings.timeout s).
  { intros s. unfold Settings.__init__.
    destruct (py_or (args_timeout args) _) as [e | tv]; [discriminate |].
    destruct (py_or (args_poll_time args) _) as [e | pv]; [discriminate |].
    destruct (Qle_bool pv tv) eqn:Hle; [| discriminate].
    intros [= <-]. simpl. by apply Qle_bool_iff. }
  split; [exact Hinv |]. split.
  - intros name self. unfold AFKWatcher.__init__.
    destruct (Settings.__init__ _ _ _) as [e | s] eqn:Hs; [discriminate |].
    intros [= <-]. simpl. by apply Hinv.
  - intros tv pv Ht Hp Hlt.
    assert (Hs : Settings.__init__ config_section (args_timeout args)
                   (args_poll_time args) = inl (AssertionError assert_msg)).
    { unfold Settings.__init__. rewrite Ht, Hp.
      apply Qle_bool_false in Hlt. by rewrite Hlt. }
    split; [exact Hs |]. intros name.
    unfold AFKWatcher.__init__. by rewrite Hs.
Qed.

(** C10.  A timeout or poll-time argument that is zero is treated like a
    missing one: the constructor behaves as if [None] had been passed, so
    the settings it builds hold the configured value in its place. *)
Theorem falsy_argument_replaced_by_config
    (config_section : gmap string Q) (timeout poll_time : option Q) (q : Q) :
  q == 0 ->
  Settings.__init__ config_section (Some q) poll_time
  = Settings.__init__ config_section None poll_time
  /\ Settings.__init__ config_section timeout (Some q)
     = Settings.__init__ config_section timeout None
  /\ (forall s c,
        config_section !! "timeout" = Some c ->
        Settings.__init__ config_section (Some q) poll_time = inr s ->
        Settings.timeout s = c)
  /\ (forall s c,
        config_section !! "poll_time" = Some c ->
        Settings.__init__ config_section timeout (Some q) = inr s ->
        Settings.poll_time s = c).
Proof.
  intros Hq. apply Qtruthy_false in Hq.
  unfold Settings.__init__, py_or, getitem. rewrite Hq.
  split; [reflexivity |]. split; [reflexivity |]. split.
  - intros s c ->.
    destruct (match poll_time with Some _ => _ | None => _ end);
      [discriminate |].
    destruct (Qle_bool _ _); [| discriminate]. by intros [= <-].
  - intros s c ->.
    destruct (match timeout with Some _ => _ | None => _ end);
      [discriminate |].
    destruct (Qle_bool _ _); [| discriminate]. by intros [= <-].
Qed.

(** ** Concrete runs *)

(** With timeout 180: not-afk, idle for 180 s at instant 1000. *)
Lemma became_afk_cycle_witness :
  exists h1 h2,
    heartbeats (emitted Linux Sample.watcher (Sample.at_ 1000 180) (fresh false))
    = [h1; h2]
    /\ stamp h1 < stamp h2.
Proof.
  destruct (became_afk_cycle Linux Sample.watcher (Sample.at_ 1000 180)
              (fresh false) 180)
    as (h1 & h2 & Hhb & _ & _ & _ & _ & _ & Hlt & _).
  - reflexivity.
  - reflexivity.
  - split; apply Qle_bool_iff; reflexivity.
  - split; apply Qle_bool_iff; reflexivity.
  - reflexivity.
  - apply Qle_bool_iff. reflexivity.
  - exists h1, h2. split; [exact Hhb |]. apply Hlt.
    apply Qle_bool_iff. reflexivity.
Defined.

(** With timeout 0 and poll time 0, which the constructor accepts: not-afk,
    the probe answers 0 >= timeout; both heartbeats carry the same instant,
    the second is not later than the first. *)
Lemma became_afk_same_instant :
  AFKWatcher.__init__ Sample.config_zero Sample.no_args "sd-watcher-afk"
  = inr Sample.watcher_zero
  /\ parent_died Linux (ppid (Sample.at_ 1000 0)) = false
  /\ probed Linux (Sample.at_ 1000 0) = inr 0
  /\ afk (fresh false) = false
  /\ Settings.timeout (AFKWatcher.settings Sample.watcher_zero) <= 0
  /\ exists h1 h2,
       heartbeats
         (emitted Linux Sample.watcher_zero (Sample.at_ 1000 0) (fresh false))
       = [h1; h2]
       /\ ~ stamp h1 < stamp h2.
Proof.
  split; [by vm_compute |]. split; [reflexivity |]. split; [reflexivity |].
  split; [reflexivity |]. split; [apply Qle_bool_iff; reflexivity |].
  do 2 eexists. split; [reflexivity |].
  intros H. apply Qlt_bool_iff in H. vm_compute in H. discriminate.
Defined.

(** With timeout 180: afk, idle for 2 s at instant 1000. *)
Lemma no_longer_afk_cycle_witness :
  exists h1 h2,
    heartbeats (emitted Linux Sample.watcher (Sample.at_ 1000 2) (fresh true))
    = [h1; h2]
    /\ stamp h2 = stamp h1 + (1 # 1000)
    /\ stamp h1 < stamp h2
    /\ afk (snd (AFKWatcher.iteration Linux Sample.watcher (Sample.at_ 1000 2)
                   (fresh true))) = false.
Proof.
  destruct (no_longer_afk_cycle Linux Sample.watcher (Sample.at_ 1000 2)
              (fresh true) 2)
    as (h1 & h2 & Hhb & _ & _ & _ & _ & _ & Hst & _ & Hlt & Hafk).
  - reflexivity.
  - reflexivity.
  - reflexivity.
  - apply Qlt_bool_iff. reflexivity.
  - exists h1, h2. auto.
Defined.

(** On Linux the failing idle query reaches the loop as an exception. *)
Lemma probe_raises_stops_witness :
  AFKWatcher.while_true Linux Sample.watcher
    [Sample.failing 1000; Sample.at_ 1005 5] (fresh false)
  = (Stopped,
     snd (AFKWatcher.iteration Linux Sample.watcher (Sample.failing 1000)
            (fresh false)))
  /\ heartbeats (emitted Linux Sample.watcher (Sample.failing 1000) (fresh false))
     = [].
Proof.
  destruct (probe_raises_stops Linux Sample.watcher (Sample.failing 1000)
              (fresh false) (OSError "event source unavailable")
              [Sample.at_ 1005 5])
    as (_ & Hstop & Hhb & _).
  - reflexivity.
  - reflexivity.
  - split; [exact Hstop | exact Hhb].
Defined.

(** C3.  The claim fails on the code at a failing idle query on macOS: the
    probe prints the failure and hands -1 to the loop, which does not check
    it.  The iteration of a not-afk watcher does not end the loop and does
    send a heartbeat: "not-afk", stamped one second after [now]. *)
Lemma macos_failure_goes_unnoticed :
  os_idle (Sample.failing 1000) = inl (OSError "event source unavailable")
  /\ probed Darwin (Sample.failing 1000) = inr (-1)
  /\ fst (AFKWatcher.iteration Darwin Sample.watcher (Sample.failing 1000)
            (fresh false)) = Continue
  /\ fst (AFKWatcher.while_true Darwin Sample.watcher [Sample.failing 1000]
            (fresh false)) = Running
  /\ heartbeats (emitted Darwin Sample.watcher (Sample.failing 1000)
                   (fresh false))
     = [ping_record Sample.watcher false (1000 - timedelta (-1))]
  /\ 1000 - timedelta (-1) == 1001.
Proof. repeat split; reflexivity. Defined.

(** The stock configuration with explicit arguments timeout 3, poll time 5. *)
Lemma settings_timeout_ge_poll_time_witness :
  Settings.poll_time (AFKWatcher.settings Sample.watcher)
  <= Settings.timeout (AFKWatcher.settings Sample.watcher)
  /\ Settings.__init__ Sample.config (Some 3) (Some 5)
     = inl (AssertionError assert_msg).
Proof.
  split.
  - destruct (settings_timeout_ge_poll_time Sample.config Sample.no_args)
      as (_ & Hw & _).
    apply (Hw "sd-watcher-afk"). by vm_compute.
  - destruct (settings_timeout_ge_poll_time Sample.config
                {| args_timeout := Some 3; args_poll_time := Some 5 |})
      as (_ & _ & Hfail).
    apply (Hfail 3 5); [reflexivity | reflexivity |].
    apply Qlt_bool_iff. reflexivity.
Defined.




(** Three polls of an active user: idle 0 s, 5 s, then 3 s. *)
Lemma steady_run_witness :
  length (heartbeats
            (run_emitted Linux Sample.watcher
               [Sample.at_ 1000 0; Sample.at_ 1005 5; Sample.at_ 1010 3]
               (fresh false))) = 3%nat
  /\ Sorted at_most_a_microsecond_back
       (map stamp
          (heartbeats
             (run_emitted Linux Sample.watcher
                [Sample.at_ 1000 0; Sample.at_ 1005 5; Sample.at_ 1010 3]
                (fresh false))))
  /\ StronglySorted Qle
       (map stamp
          (heartbeats
             (run_emitted Linux Sample.watcher
                [Sample.at_ 1000 0; Sample.at_ 1005 5; Sample.at_ 1010 3]
                (fresh false)))).
Proof.
  destruct (steady_run Linux Sample.watcher false
              [Sample.at_ 1000 0; Sample.at_ 1005 5; Sample.at_ 1010 3]
              (fresh false))
    as (Hlen & _ & _ & Hnear & Hsorted & _).
  - reflexivity.
  - repeat constructor.
  - reflexivity.
  - simpl. repeat split; apply Qle_bool_iff; reflexivity.
  - split; [exact Hlen |]. split; [exact Hnear |]. apply Hsorted.
    right. repeat constructor; reflexivity.
Defined.

(** Two polls of an active user, 5.015625 s apart, idle for 7 + 1/128 s and
    then for 12 + 3/128 s: the idle seconds grew by exactly the time
    elapsed, yet [timedelta] rounds the first down and the second up, and
    the second heartbeat is stamped a microsecond before the first. *)
Lemma steady_stamps_step_back :
  afk (fresh false) = false
  /\ Forall (fun env => classification Linux Sample.watcher env = Some false)
       [Sample.at_ 1000 (897 # 128); Sample.at_ (64321 # 64) (1539 # 128)]
  /\ fst (AFKWatcher.while_true Linux Sample.watcher
            (removelast
               [Sample.at_ 1000 (897 # 128);
                Sample.at_ (64321 # 64) (1539 # 128)])
            (fresh false)) = Running
  /\ clock_consistent Linux
       [Sample.at_ 1000 (897 # 128); Sample.at_ (64321 # 64) (1539 # 128)]
  /\ exists h1 h2,
       heartbeats
         (run_emitted Linux Sample.watcher
            [Sample.at_ 1000 (897 # 128); Sample.at_ (64321 # 64) (1539 # 128)]
            (fresh false))
       = [h1; h2]
       /\ stamp h2 < stamp h1
       /\ stamp h1 - stamp h2 == microsecond
       /\ ~ StronglySorted Qle [stamp h1; stamp h2].
Proof.
  split; [reflexivity |]. split; [repeat constructor |].
  split; [reflexivity |].
  split; [simpl; repeat split; apply Qle_bool_iff; reflexivity |].
  do 2 eexists. split; [reflexivity |].
  split; [apply Qlt_bool_iff; reflexivity |]. split; [reflexivity |].
  intros H. inversion H as [| ? ? _ Hall]; subst.
  inversion Hall as [| ? ? Hle _]; subst.
  apply Qle_bool_iff in Hle. vm_compute in Hle. discriminate.
Defined.

(** First polls of a fresh run: idle 7 s, or idle 200 s. *)
Lemma run_starts_not_afk_witness :
  map status
    (heartbeats
       (trace (snd (AFKWatcher.heartbeat_loop Linux Sample.watcher
                      [Sample.at_ 1000 7]))))
  = [Some "not-afk"]
  /\ map status
       (heartbeats
          (trace (snd (AFKWatcher.heartbeat_loop Linux Sample.watcher
                         [Sample.at_ 1000 200]))))
     = [Some "afk"; Some "afk"].
Proof.
  destruct (run_starts_not_afk Linux Sample.watcher) as (_ & _ & Hfirst).
  split.
  - apply (Hfirst (Sample.at_ 1000 7) 7); reflexivity.
  - apply (Hfirst (Sample.at_ 1000 200) 200); reflexivity.
Defined.

(** [Settings(config, timeout=0, poll_time=0)] on the stock configuration. *)
Lemma falsy_argument_replaced_by_config_witness :
  Settings.__init__ Sample.config (Some 0) (Some 0)
  = inr {| Settings.timeout := 180; Settings.poll_time := 5 |}.
Proof.
  destruct (falsy_argument_replaced_by_config Sample.config (Some 0) None 0)
    as (_ & Hp & _); [reflexivity |].
  rewrite Hp.
  destruct (falsy_argument_replaced_by_config Sample.config None None 0)
    as (Ht & _); [reflexivity |].
  rewrite Ht. by vm_compute.
Defined.

(** * Further properties of the loop *)

Section LoopExtras.

Context (system : platform) (self : AFKWatcher.t).

Abbreviation timeout := (Settings.timeout (AFKWatcher.settings self)).
Abbreviation poll_time := (Settings.poll_time (AFKWatcher.settings self)).
Abbreviation iteration := (AFKWatcher.iteration system self).
Abbreviation while_true := (AFKWatcher.while_true system self).
Abbreviation heartbeat_loop := (AFKWatcher.heartbeat_loop system self).

Ltac unfold_body :=
  unfold AFKWatcher.iteration, AFKWatcher.loop_body, AFKWatcher.ping, sleep,
    Qlt_bool, bind, ret, raise, emit, get_afk, set_afk.

(** X1.  When the parent process has died (pid 1 on Darwin and Linux) the
    loop stops at once whatever would follow: the probe is not consulted,
    the state is kept and the only thing emitted is the info record.  On
    Windows the parent pid plays no role. *)
Theorem orphaned_loop_stops env w rest :
  (parent_died system (ppid env) = true ->
   while_true (env :: rest) w
   = (Stopped,
      {| afk := afk w;
         trace := trace w
                  ++ [Log INFO "afkwatcher stopped because parent process died"] |}))
  /\ (forall p,
        AFKWatcher.iteration Windows self (with_ppid p env) w
        = AFKWatcher.iteration Windows self env w)
  /\ (parent_died system (ppid env) = true
      <-> system <> Windows /\ ppid env = 1%Z).
Proof.
  split; [| split].
  - intros Hdied. simpl. unfold_body. by rewrite Hdied.
  - intros p. reflexivity.
  - unfold parent_died. destruct system; simpl;
      rewrite ?Z.eqb_eq; split; try done; try tauto; intros [H _]; done.
Qed.

(** What an iteration that gets [v] from the probe emits before it sleeps
    does not depend on the sleep. *)
Lemma iteration_interrupted env w v e :
  parent_died system (ppid env) = false ->
  probed system env = inr v ->
  Qle_bool 0 poll_time = true ->
  interrupt env = Some e ->
  iteration env w
  = (Break,
     {| afk := afk (snd (iteration (uninterrupted env) w));
        trace := trace (snd (iteration (uninterrupted env) w))
                 ++ [handler_record e] |})
  /\ fst (iteration (uninterrupted env) w) = Continue.
Proof.
  intros Hdied Hv Hpoll Hint.
  destruct (probe_frame system env w) as (printed & Hp & _ & _).
  unfold_body. simpl. rewrite Hdied, Hp, Hv, Hint, Hpoll.
  destruct w as [a tr]; simpl.
  destruct a, (Qle_bool timeout v), e; simpl; split; reflexivity.
Qed.

(** X2.  An exception delivered during the sleep of an iteration (poll time
    not negative) ends the loop after that iteration's heartbeats were sent:
    the trace is the one of the undisturbed iteration followed by the
    handler's record, an info record for a keyboard interrupt and an error
    record otherwise. *)
Theorem interrupted_sleep_stops env w v e rest :
  parent_died system (ppid env) = false ->
  probed system env = inr v ->
  0 <= poll_time ->
  interrupt env = Some e ->
  while_true (env :: rest) w
  = (Stopped,
     {| afk := Qle_bool timeout v;
        trace := trace w ++ emitted system self (uninterrupted env) w
                 ++ [handler_record e] |})
  /\ heartbeats (emitted system self env w)
     = heartbeats (emitted system self (uninterrupted env) w)
  /\ (e = KeyboardInterrupt ->
      last (emitted system self env w)
      = Some (Log INFO "sd-watcher-afk stopped by keyboard interrupt")).
Proof.
  intros Hdied Hv Hpoll Hint. apply Qle_bool_iff in Hpoll.
  destruct (iteration_interrupted env w v e Hdied Hv Hpoll Hint) as [Hit _].
  destruct (iteration_probed system self (uninterrupted env) w v Hdied Hv)
    as [_ Hst].
  assert (Hem : emitted system self env w
                = emitted system self (uninterrupted env) w
                  ++ [handler_record e]).
  { unfold emitted at 1. rewrite Hit. simpl.
    rewrite iteration_frame, <- app_assoc. by rewrite drop_app_length. }
  split; [| split].
  - simpl. rewrite Hit, Hst, iteration_frame, <- app_assoc. reflexivity.
  - rewrite Hem, heartbeats_app. unfold handler_record.
    destruct (is_Exception e); simpl; by rewrite app_nil_r.
  - intros ->. rewrite Hem, last_snoc. reflexivity.
Qed.

(** X3.  With a negative poll time the first iteration that probes sends its
    heartbeats and then ends the loop: [sleep] refuses the length, and the
    error record is the last thing emitted. *)
Theorem negative_poll_time_stops env w v rest :
  parent_died system (ppid env) = false ->
  probed system env = inr v ->
  poll_time < 0 ->
  while_true (env :: rest) w = (Stopped, snd (iteration env w))
  /\ afk (snd (iteration env w)) = Qle_bool timeout v
  /\ (1 <= length (heartbeats (emitted system self env w)))%nat
  /\ last (emitted system self env w)
     = Some (Log ERROR
               "Unexpected error occurred: sleep length must be non-negative").
Proof.
  intros Hdied Hv Hneg. apply Qle_bool_false in Hneg.
  destruct (iteration_probed system self env w v Hdied Hv) as [Hhb Hst].
  split; [| split; [exact Hst | split]].
  - simpl.
    destruct (probe_frame system env w) as (printed & Hp & _ & _).
    unfold_body. rewrite Hdied, Hp, Hv, Hneg. destruct w as [a tr]; simpl.
    by destruct a, (Qle_bool timeout v).
  - rewrite Hhb. destruct (afk w), (Qle_bool timeout v); simpl; lia.
  - unfold emitted.
    destruct (probe_frame system env w) as (printed & Hp & _ & _).
    unfold_body. rewrite Hdied, Hp, Hv, Hneg. destruct w as [a tr]; simpl.
    destruct a, (Qle_bool timeout v); simpl;
      rewrite <- ?app_assoc, drop_app_length, ?app_assoc, last_snoc;
      reflexivity.
Qed.

(** X5.  Whatever the state before, after an iteration that got [v] from
    the probe the tracker is afk exactly when [v] reaches the timeout; an
    iteration that got nothing leaves the state alone. *)
Theorem state_follows_probe env w :
  (forall v,
     parent_died system (ppid env) = false ->
     probed system env = inr v ->
     (afk (snd (iteration env w)) = true <-> timeout <= v)
     /\ (afk (snd (iteration env w)) = false <-> v < timeout))
  /\ (classification system self env = None ->
      afk (snd (iteration env w)) = afk w).
Proof.
  split.
  - intros v Hdied Hv.
    destruct (iteration_probed system self env w v Hdied Hv) as [_ ->].
    split; [apply Qle_bool_iff | apply Qle_bool_false].
  - unfold classification. intros Hc.
    apply iteration_no_value.
    destruct (parent_died system (ppid env)); [by left | right].
    destruct (probed system env) as [e | v]; [by exists e | discriminate].
Qed.

Lemma emitted_from_ping env w : Forall (from_ping self) (emitted system self env w).
Proof.
  unfold emitted.
  destruct (probe_frame system env w) as (printed & Hp & Hh & _).
  assert (Hpr : Forall (from_ping self) printed).
  { clear Hp. induction printed as [| x l IH]; [constructor |].
    destruct x; simpl in Hh; try discriminate; constructor; simpl; auto. }
  assert (Hping : forall b ts,
            from_ping self
              (Heartbeat (AFKWatcher.bucketname self)
                 (fst (ping_record self b ts)) (snd (ping_record self b ts))
                 true)).
  { intros b ts. by exists b, ts. }
  unfold_body.
  destruct (parent_died system (ppid env)); simpl.
  { rewrite drop_app_length. repeat constructor. }
  rewrite Hp. destruct w as [a tr]; simpl.
  destruct (probed system env) as [[] | v]; simpl;
    try (rewrite <- ?app_assoc, drop_app_length;
         apply Forall_app; split; [exact Hpr | repeat constructor]).
  destruct a, (Qle_bool timeout v), (Qle_bool 0 poll_time),
    (interrupt env) as [[] |]; simpl;
    rewrite <- ?app_assoc, drop_app_length;
    (apply Forall_app; split; [exact Hpr |]);
    repeat first [ exact I
                 | apply Forall_nil
                 | apply Forall_cons; split;
                   [first [exact I | apply (Hping true) | apply (Hping false)] |] ].
Qed.

Lemma run_emitted_forall (P : effect -> Prop) :
  (forall env w, Forall P (emitted system self env w)) ->
  forall envs w, Forall P (run_emitted system self envs w).
Proof.
  intros HP envs. induction envs as [| env rest IH]; intros w.
  - unfold run_emitted. simpl. rewrite drop_all. constructor.
  - rewrite run_emitted_cons. apply Forall_app. split; [apply HP |].
    destruct (fst (iteration env w)); [apply IH | constructor].
Qed.

(** X6.  Every heartbeat in the trace of a run carries the three entries
    [ping] writes and nothing else: the app "afk", the title "Idle time" and
    a status that is "afk" or "not-afk". *)
Theorem heartbeat_data envs bucket e pulsetime queued :
  Heartbeat bucket e pulsetime queued ∈ trace (snd (heartbeat_loop envs)) ->
  data e !! "app" = Some "afk"
  /\ data e !! "title" = Some "Idle time"
  /\ (data e !! "status" = Some "afk" \/ data e !! "status" = Some "not-afk")
  /\ dom (data e) = ({["status"; "app"; "title"]} : gset string).
Proof.
  intros Hin.
  pose proof (run_emitted_forall (from_ping self) emitted_from_ping envs
                (fresh false)) as Hall.
  unfold AFKWatcher.heartbeat_loop in Hin. fold (fresh false) in Hin.
  rewrite while_true_frame in Hin. simpl in Hin.
  rewrite Forall_forall in Hall. apply Hall in Hin.
  destruct Hin as (b & ts & [= _ -> _ _]).
  destruct b; simpl; repeat split; auto; by vm_compute.
Qed.


(** X8.  An iteration sends at most two heartbeats, so a run of N
    iterations sends at most 2N; an iteration that got a value from the
    probe sends at least one. *)
Theorem heartbeat_count envs w :
  (length (heartbeats (run_emitted system self envs w)) <= 2 * length envs)%nat
  /\ (forall env,
        classification system self env <> None ->
        (1 <= length (heartbeats (emitted system self env w)))%nat).
Proof.
  assert (Hone : forall env w',
            (length (heartbeats (emitted system self env w')) <= 2)%nat
            /\ (classification system self env <> None ->
                (1 <= length (heartbeats (emitted system self env w')))%nat)).
  { intros env w'. unfold classification.
    destruct (parent_died system (ppid env)) eqn:Hdied.
    { destruct (iteration_no_value system self env w') as (_ & -> & _);
        [by left |]. simpl. split; [lia | done]. }
    destruct (probed system env) as [e | v] eqn:Hv.
    { destruct (iteration_no_value system self env w') as (_ & -> & _);
        [right; by exists e |]. simpl. split; [lia | done]. }
    destruct (iteration_probed system self env w' v Hdied Hv) as [-> _].
    destruct (afk w'), (Qle_bool timeout v); simpl; split; intros; lia. }
  split; [| intros env; apply Hone].
  revert w. induction envs as [| env rest IH]; intros w.
  - unfold run_emitted. simpl. rewrite drop_all. simpl. lia.
  - rewrite run_emitted_cons, heartbeats_app, length_app.
    destruct (Hone env w) as [H2 _].
    destruct (fst (iteration env w)); simpl length.
    + specialize (IH (snd (iteration env w))). lia.
    + lia.
Qed.

End LoopExtras.

(** X9.  On macOS a failing idle query never reaches the loop as an error:
    the probe prints the failure and answers -1, which a watcher whose
    timeout is above -1 reads as activity.  The iteration leaves the tracker
    not afk, and every heartbeat it sends says "not-afk" and is stamped
    later than [now]; nothing but the sleep can end that iteration. *)
Theorem macos_failure_reads_as_active (self : AFKWatcher.t) env w e :
  parent_died Darwin (ppid env) = false ->
  os_idle env = inl e ->
  is_Exception e = true ->
  -1 < Settings.timeout (AFKWatcher.settings self) ->
  probed Darwin env = inr (-1)
  /\ Print ("Error retrieving input event time: " +:+ str e)
     ∈ emitted Darwin self env w
  /\ afk (snd (AFKWatcher.iteration Darwin self env w)) = false
  /\ heartbeats (emitted Darwin self env w) <> []
  /\ Forall (fun h => status h = Some "not-afk" /\ now env < stamp h)
       (heartbeats (emitted Darwin self env w))
  /\ fst (AFKWatcher.iteration Darwin self (uninterrupted env) w)
     = if Qle_bool 0 (Settings.poll_time (AFKWatcher.settings self))
       then Continue else Break.
Proof.
  intros Hdied Hos Hexc Hlt.
  assert (Hv : probed Darwin env = inr (-1)).
  { unfold probed. rewrite Hos. by destruct e. }
  destruct (iteration_probed Darwin self env w (-1) Hdied Hv) as [Hhb Hst].
  apply Qle_bool_false in Hlt. rewrite Hlt in Hhb, Hst.
  split; [exact Hv |]. split; [| split; [exact Hst | split; [| split]]].
  - unfold emitted, AFKWatcher.iteration, AFKWatcher.loop_body,
      AFKWatcher.ping, sleep, Qlt_bool, bind, ret, raise, emit, get_afk,
      set_afk, seconds_since_last_input, macos.seconds_since_last_input,
      try_except_Exception, lift.
    rewrite Hdied, Hos, Hexc. destruct w as [a tr]; simpl. rewrite Hlt.
    destruct a, (Qle_bool 0 _), (interrupt env) as [[] |]; simpl;
      rewrite <- ?app_assoc, drop_app_length; apply list_elem_of_here.
  - rewrite Hhb. by destruct (afk w).
  - rewrite Hhb.
    assert (Hone : timedelta (-1) == -1) by reflexivity.
    destruct (afk w); repeat constructor; rewrite stamp_ping_record;
      unfold td1ms; lra.
  - unfold AFKWatcher.iteration, AFKWatcher.loop_body,
      AFKWatcher.ping, sleep, Qlt_bool, bind, ret, raise, emit, get_afk,
      set_afk, seconds_since_last_input, macos.seconds_since_last_input,
      try_except_Exception, lift.
    simpl. rewrite Hdied, Hos, Hexc. destruct w as [a tr]; simpl. rewrite Hlt.
    by destruct a, (Qle_bool 0 _).
Qed.

(** ** Further properties of the settings *)

(** X10.  Arguments that are not zero are the settings, whatever the
    configuration section holds or lacks: it is not consulted for them, and
    the only thing that can fail is the assertion. *)
Theorem explicit_arguments_win (config_section : gmap string Q) (tv pv : Q) :
  ~ tv == 0 ->
  ~ pv == 0 ->
  Settings.__init__ config_section (Some tv) (Some pv)
  = (if Qle_bool pv tv
     then inr {| Settings.timeout := tv; Settings.poll_time := pv |}
     else inl (AssertionError assert_msg))
  /\ (forall poll_time s,
        Settings.__init__ config_section (Some tv) poll_time = inr s ->
        Settings.timeout s = tv)
  /\ (forall timeout s,
        Settings.__init__ config_section timeout (Some pv) = inr s ->
        Settings.poll_time s = pv).
Proof.
  intros Ht Hp.
  assert (Ht' : Qtruthy tv = true).
  { destruct (Qtruthy tv) eqn:E; [done |]. by apply Qtruthy_false in E. }
  assert (Hp' : Qtruthy pv = true).
  { destruct (Qtruthy pv) eqn:E; [done |]. by apply Qtruthy_false in E. }
  unfold Settings.__init__, py_or. rewrite Ht', Hp'.
  split; [reflexivity |]. split.
  - intros poll_time s.
    destruct (match poll_time with Some _ => _ | None => _ end);
      [discriminate |].
    destruct (Qle_bool _ _); [| discriminate]. by intros [= <-].
  - intros timeout s.
    destruct (match timeout with Some _ => _ | None => _ end);
      [discriminate |].
    destruct (Qle_bool _ _); [| discriminate]. by intros [= <-].
Qed.

(** X11.  A setting that is neither passed (or passed as zero) nor
    configured raises the key error of its name; the timeout is looked up
    first, and a missing poll time is reported before the two values are
    compared. *)
Theorem missing_setting_raises_KeyError
    (config_section : gmap string Q) (timeout poll_time : option Q) :
  (falsy timeout = true ->
   config_section !! "timeout" = None ->
   Settings.__init__ config_section timeout poll_time
   = inl (KeyError "timeout"))
  /\ (forall tv,
        py_or timeout (getitem config_section "timeout") = inr tv ->
        falsy poll_time = true ->
        config_section !! "poll_time" = None ->
        Settings.__init__ config_section timeout poll_time
        = inl (KeyError "poll_time")).
Proof.
  unfold Settings.__init__, py_or, getitem, falsy. split.
  - intros Hfalsy ->.
    destruct timeout as [q |]; [| reflexivity].
    destruct (Qtruthy q); [discriminate | reflexivity].
  - intros tv -> Hfalsy ->.
    destruct poll_time as [q |]; [| reflexivity].
    destruct (Qtruthy q); [discriminate | reflexivity].
Qed.

(** ** The watcher's [run] *)

Lemma filter_map_Emitted (P : run_event -> bool) (l : list effect) :
  (forall x, P (Emitted x) = false) ->
  List.filter P (map Emitted l) = [].
Proof.
  intros HP. induction l as [| x l IH]; simpl; [reflexivity |].
  by rewrite HP.
Qed.

(** X12.  A run that gets through its initial sleep creates the bucket
    exactly once, with type "afkstatus", before it enters the client and
    before anything the loop emits; every heartbeat addresses that same
    bucket; and the client is left exactly when the loop has stopped.  A run
    interrupted in the initial sleep raises, having touched no bucket. *)
Theorem run_creates_bucket_once system (self : AFKWatcher.t) envs :
  (forall e,
     AFKWatcher_run system self (Some e) envs
     = (inl e, [Emitted (Log INFO "sd-watcher-afk started")]))
  /\ exists st body,
       AFKWatcher_run system self None envs
       = (inr st,
          [Emitted (Log INFO "sd-watcher-afk started");
           CreateBucket (AFKWatcher.bucketname self) "afkstatus" true;
           ClientEnter] ++ body)
       /\ st = fst (AFKWatcher.heartbeat_loop system self envs)
       /\ List.filter is_create_bucket body = []
       /\ Forall (fun x => forall b, addressed_bucket x = Some b ->
                                     b = AFKWatcher.bucketname self) body
       /\ List.filter is_heartbeat body
          = map (fun x => Emitted x)
              (List.filter (fun x => is_heartbeat (Emitted x))
                 (trace (snd (AFKWatcher.heartbeat_loop system self envs))))
       /\ (st = Stopped <-> last body = Some ClientExit).
Proof.
  split; [reflexivity |].
  unfold AFKWatcher_run.
  destruct (AFKWatcher.heartbeat_loop system self envs) as [st w] eqn:Hloop.
  exists st. eexists. split; [reflexivity |]. simpl.
  split; [reflexivity |].
  assert (Hws : Forall (well_sent self) (trace w)).
  { replace w with (snd (AFKWatcher.heartbeat_loop system self envs))
      by (by rewrite Hloop).
    unfold AFKWatcher.heartbeat_loop. rewrite while_true_frame. simpl.
    apply run_emitted_forall. apply emitted_well_sent. }
  split; [| split; [| split]].
  - rewrite List.filter_app, filter_map_Emitted by done.
    by destruct st.
  - apply Forall_app. split.
    + apply Forall_map. eapply Forall_impl; [exact Hws |].
      intros [] Hx b; simpl; try discriminate.
      intros [= <-]. by destruct Hx.
    + destruct st; repeat constructor; discriminate.
  - rewrite List.filter_app.
    replace (List.filter is_heartbeat
               match st with Running => [] | Stopped => [ClientExit] end)
      with (@nil run_event) by (by destruct st).
    rewrite app_nil_r. clear.
    induction (trace w) as [| x l IH]; simpl; [reflexivity |].
    destruct x; simpl; by rewrite ?IH.
  - destruct st; simpl.
    + rewrite app_nil_r. split; [discriminate |].
      destruct (trace w) as [| x l] using rev_ind; [discriminate |].
      rewrite map_app. simpl. rewrite last_snoc. discriminate.
    + rewrite last_snoc. split; reflexivity.
Qed.

(** * The input listeners *)

Section Listeners.

Import listeners.
Local Open Scope Z_scope.

(** ** Keyboard *)

Lemma key_run_snoc l a self :
  key_run (l ++ [a]) self = key_step (key_run l self) a.
Proof. unfold key_run. by rewrite fold_left_app. Qed.

Lemma key_run_log_irrelevant (l : list key_action) s o1 o2 :
  fst (fold_left key_step l (s, o1)) = fst (fold_left key_step l (s, o2)).
Proof.
  revert s o1 o2. induction l as [| a l IH]; intros s o1 o2; [reflexivity |].
  simpl. destruct a as [i |]; simpl; [| apply IH].
  destruct (key_callback i s) as [s' out']. apply IH.
Qed.

Lemma key_feed_cons i l self :
  key_feed (i :: l) self = key_feed l (fst (key_callback i self)).
Proof.
  unfold key_feed, key_run. simpl.
  destruct (key_callback i self) as [s out]. simpl.
  apply key_run_log_irrelevant.
Qed.

(** X13.  From a listener whose data is the single entry "presses" = n,
    the callbacks [l] leave "presses" = n + the number of presses in [l]
    (releases do not count), and the flag is raised exactly when it was up
    or a key was pressed.  [next_event] then hands out that count and leaves
    a cleared listener, with the count back at zero. *)
Theorem keyboard_counts_presses (l : list key_input) self n :
  KeyboardListener.event_data self = {["presses" := n]} ->
  KeyboardListener.event_data (key_feed l self)
  = {["presses" := n + presses_in l]}
  /\ has_new_event (key_feed l self)
     = KeyboardListener.new_event self || (0 <? presses_in l)
  /\ next_event (key_feed l self)
     = ({["presses" := n + presses_in l]},
        {| KeyboardListener.new_event := false;
           KeyboardListener.event_data := {["presses" := 0]} |}).
Proof.
  revert self n. induction l as [| i l IH]; intros [f d] n Hd;
    simpl in Hd; subst d.
  - unfold key_feed, presses_in. simpl. rewrite Z.add_0_r, orb_false_r.
    repeat split.
  - rewrite key_feed_cons. destruct i as [key | key]; simpl.
    + unfold KeyboardListener.on_press. simpl.
      rewrite lookup_singleton_eq. simpl.
      destruct (IH {| KeyboardListener.new_event := true;
                      KeyboardListener.event_data :=
                        <["presses" := n + 1]> {["presses" := n]} |} (n + 1))
        as (IH1 & IH2 & IH3).
      { simpl. apply insert_singleton_eq. }
      assert (Hp : presses_in (Press key :: l) = 1 + presses_in l).
      { unfold presses_in. simpl. lia. }
      rewrite Hp, Z.add_assoc. split; [exact IH1 |]. split; [| exact IH3].
      unfold has_new_event in IH2. simpl in IH2. rewrite IH2.
      assert (Hpos : (0 <? 1 + presses_in l) = true).
      { apply Z.ltb_lt. unfold presses_in. lia. }
      rewrite Hpos, orb_true_r. reflexivity.
    + destruct (IH {| KeyboardListener.new_event := f;
                      KeyboardListener.event_data := {["presses" := n]} |}
                  n eq_refl) as (IH1 & IH2 & IH3).
      assert (Hp : presses_in (Release key :: l) = presses_in l) by done.
      rewrite Hp. auto.
Qed.

(** X14.  Whatever callbacks and [next_event] calls a keyboard listener
    sees after its construction, one after the other, its data stays the single counter
    "presses", never negative and at zero whenever [has_new_event] is
    false; the key lookup in [on_press] never fails, so nothing is logged
    above debug level. *)
Theorem keyboard_invariant (l : list key_action) :
  keyboard_ok (fst (key_run l KeyboardListener.__init__))
  /\ Forall is_debug (snd (key_run l KeyboardListener.__init__)).
Proof.
  induction l as [| a l IH] using rev_ind.
  - split; [| constructor]. exists 0. by vm_compute.
  - rewrite key_run_snoc.
    destruct (key_run l KeyboardListener.__init__) as [s out].
    destruct IH as [(n & Hd & Hn & Hz) Hlog]. simpl in *.
    destruct a as [[key | key] |]; simpl.
    + unfold KeyboardListener.on_press. rewrite Hd, lookup_singleton_eq. simpl.
      split.
      * exists (n + 1). simpl. rewrite insert_singleton_eq.
        repeat split; [lia | discriminate].
      * apply Forall_app. split; [exact Hlog | by repeat constructor].
    + rewrite app_nil_r. split; [by exists n | exact Hlog].
    + split; [| exact Hlog]. exists 0. simpl. by repeat split.
Qed.

(** ** Mouse *)

Lemma counter_add_to key key' n d :
  counter key (add_to key' n d)
  = if decide (key' = key) then counter key d + n else counter key d.
Proof.
  unfold counter, add_to. rewrite lookup_insert.
  case_decide; [subst |]; reflexivity.
Qed.

Lemma mouse_feed_cons i l self :
  mouse_feed (i :: l) self = mouse_feed l (fst (mouse_callback i self)).
Proof. reflexivity. Qed.

Lemma mouse_feed_app l1 l2 self :
  mouse_feed (l1 ++ l2) self = mouse_feed l2 (mouse_feed l1 self).
Proof. unfold mouse_feed, mouse_run. by rewrite map_app, fold_left_app. Qed.

Lemma pos_callback i self :
  MouseListener.pos (fst (mouse_callback i self))
  = match i with
    | Move x y => Some (x, y)
    | _ => MouseListener.pos self
    end.
Proof.
  destruct i as [x y | x y b pr | x y sx sy]; simpl.
  - unfold MouseListener.on_move. by destruct (MouseListener.pos self).
  - unfold MouseListener.on_click. by destruct pr.
  - reflexivity.
Qed.

Lemma travelled_nonneg p l : 0 <= fst (travelled p l) /\ 0 <= snd (travelled p l).
Proof.
  revert p. induction l as [| i l IH]; intros p; simpl; [lia |].
  destruct i as [x y | |]; try apply IH.
  specialize (IH (Some (x, y))). destruct (travelled (Some (x, y)) l).
  destruct p as [[px py] |]; simpl in *; lia.
Qed.

Lemma clicked_nonneg l : 0 <= clicked l.
Proof.
  induction l as [| i l IH]; simpl; [lia |].
  destruct i as [| x y b [] |]; lia.
Qed.

Lemma scrolled_nonneg l : 0 <= fst (scrolled l) /\ 0 <= snd (scrolled l).
Proof.
  induction l as [| i l IH]; simpl; [lia |].
  destruct i; try apply IH. destruct (scrolled l). simpl in *. lia.
Qed.

Lemma tally_nil key p : tally key p [] = 0.
Proof. unfold tally. by repeat case_decide. Qed.

Lemma counter_after_feed (l : list mouse_input) self key :
  counter key (MouseListener.event_data (mouse_feed l self))
  = counter key (MouseListener.event_data self)
    + tally key (MouseListener.pos self) l.
Proof.
  revert self. induction l as [| i l IH]; intros self.
  - rewrite tally_nil. change (mouse_feed [] self) with self. lia.
  - rewrite mouse_feed_cons, IH, pos_callback.
    destruct i as [x y | x y b pr | x y sx sy]; simpl.
    + unfold MouseListener.on_move, tally. simpl.
      destruct (travelled (Some (x, y)) l) as [dx dy].
      destruct (MouseListener.pos self) as [[px py] |]; simpl;
        [| repeat case_decide; lia].
      destruct (negb (x - px =? 0) || negb (y - py =? 0)) eqn:Hmv; simpl.
      * rewrite !counter_add_to. repeat case_decide; subst; try done; simpl; lia.
      * apply orb_false_elim in Hmv. destruct Hmv as [Hx Hy].
        apply negb_false_iff, Z.eqb_eq in Hx, Hy.
        repeat case_decide; simpl; lia.
    + unfold MouseListener.on_click, tally. destruct pr; simpl.
      * rewrite counter_add_to. repeat case_decide; subst; try done; simpl; lia.
      * repeat case_decide; simpl; lia.
    + unfold tally. simpl. destruct (scrolled l) as [tx ty].
      rewrite !counter_add_to. repeat case_decide; subst; try done; simpl; lia.
Qed.

(** X15.  What the mouse callbacks accumulate: after the callbacks [l],
    "clicks" has grown by the number of button presses in [l] (releases do
    not count), "deltaX" and "deltaY" by the distance the pointer covered
    along each axis from where it was last seen (the first move ever only
    records the position), "scrollX" and "scrollY" by the absolute scroll
    amounts; no other entry changes. *)
Theorem mouse_counts (l : list mouse_input) self key :
  counter key (MouseListener.event_data (mouse_feed l self))
  = counter key (MouseListener.event_data self)
    + tally key (MouseListener.pos self) l
  /\ 0 <= tally key (MouseListener.pos self) l.
Proof.
  split; [apply counter_after_feed |].
  pose proof (travelled_nonneg (MouseListener.pos self) l).
  pose proof (clicked_nonneg l). pose proof (scrolled_nonneg l).
  unfold tally. repeat case_decide; lia.
Qed.

Lemma tally_app key l1 l2 self :
  tally key (MouseListener.pos self) (l1 ++ l2)
  = tally key (MouseListener.pos self) l1
    + tally key (MouseListener.pos (mouse_feed l1 self)) l2.
Proof.
  revert self. induction l1 as [| i l1 IH]; intros self.
  - rewrite tally_nil. reflexivity.
  - rewrite mouse_feed_cons. specialize (IH (fst (mouse_callback i self))).
    rewrite pos_callback in IH. revert IH. unfold tally.
    destruct i as [x y | x y b pr | x y sx sy]; simpl.
    + destruct (travelled (Some (x, y)) (l1 ++ l2)),
        (travelled (Some (x, y)) l1).
      destruct (MouseListener.pos self) as [[px py] |]; simpl;
        repeat case_decide; simpl; lia.
    + destruct pr; repeat case_decide; simpl; lia.
    + destruct (scrolled (l1 ++ l2)), (scrolled l1). simpl.
      repeat case_decide; simpl; lia.
Qed.

Lemma pos_feed_eq l s s' :
  MouseListener.pos s = MouseListener.pos s' ->
  MouseListener.pos (mouse_feed l s) = MouseListener.pos (mouse_feed l s').
Proof.
  revert s s'. induction l as [| i l IH]; intros s s' H; [exact H |].
  rewrite !mouse_feed_cons. apply IH. rewrite !pos_callback.
  by destruct i.
Qed.

(** X16.  As long as calls do not overlap, taking the data in between
    loses and repeats nothing: what
    [next_event] hands out after the callbacks [l1], plus what it hands out
    after the callbacks [l2] that follow, is for every counter what one call
    after [l1 ++ l2] hands out, and the listener is left the same.  (The
    position survives [next_event], so the move that follows it is measured
    from the last one before it.) *)
Theorem mouse_snapshots_add_up (l1 l2 : list mouse_input) self key :
  let start := MouseListener._reset_data self in
  let taken1 := next_event (mouse_feed l1 start) in
  let taken2 := next_event (mouse_feed l2 (snd taken1)) in
  let taken := next_event (mouse_feed (l1 ++ l2) start) in
  counter key (fst taken1) + counter key (fst taken2)
  = counter key (fst taken)
  /\ snd taken2 = snd taken.
Proof.
  intros start taken1 taken2 taken. subst taken1 taken2 taken.
  unfold next_event. simpl.
  set (s1 := MouseListener._reset_data
               {| MouseListener.new_event := false;
                  MouseListener.event_data :=
                    MouseListener.event_data (mouse_feed l1 start);
                  MouseListener.pos := MouseListener.pos (mouse_feed l1 start) |}).
  assert (Hpos : MouseListener.pos s1 = MouseListener.pos (mouse_feed l1 start))
    by reflexivity.
  split.
  - rewrite !counter_after_feed, tally_app, Hpos.
    assert (H0 : counter key (MouseListener.event_data s1)
                 = counter key (MouseListener.event_data start)) by reflexivity.
    rewrite H0.
    assert (Hz : counter key (MouseListener.event_data start) = 0).
    { unfold counter, start. simpl.
      rewrite !lookup_insert. by repeat case_decide. }
    rewrite Hz. lia.
  - unfold MouseListener._reset_data. simpl. f_equal.
    rewrite mouse_feed_app. by apply pos_feed_eq.
Qed.

Lemma mouse_ok_reset self : mouse_ok (snd (next_event self)).
Proof.
  unfold mouse_ok, next_event. simpl. split; [by vm_compute |].
  split; [| reflexivity].
  intros key. unfold counter. rewrite !lookup_insert.
  repeat case_decide; simpl; try lia. by rewrite lookup_empty.
Qed.

Lemma mouse_ok_add_to key n d :
  key ∈ ({["clicks"; "deltaX"; "deltaY"; "scrollX"; "scrollY"]} : gset string) ->
  0 <= n ->
  dom d = ({["clicks"; "deltaX"; "deltaY"; "scrollX"; "scrollY"]} : gset string)
  /\ (forall k, 0 <= counter k d) ->
  dom (add_to key n d)
  = ({["clicks"; "deltaX"; "deltaY"; "scrollX"; "scrollY"]} : gset string)
  /\ (forall k, 0 <= counter k (add_to key n d)).
Proof.
  intros Hin Hn [Hdom Hpos]. split.
  - unfold add_to. rewrite dom_insert_L, Hdom.
    apply subseteq_union_1_L, singleton_subseteq_l, Hin.
  - intros k. rewrite counter_add_to. specialize (Hpos k).
    case_decide; lia.
Qed.

Lemma mouse_ok_step self a : mouse_ok self -> mouse_ok (mouse_step self a).
Proof.
  intros (Hdom & Hpos & Hzero).
  destruct a as [[x y | x y b pr | x y sx sy] |]; [| | | apply mouse_ok_reset];
    unfold mouse_ok; simpl.
  - unfold MouseListener.on_move.
    destruct (MouseListener.pos self) as [[px py] |]; simpl; [| done].
    destruct (negb (x - px =? 0) || negb (y - py =? 0)); simpl; [| done].
    destruct (mouse_ok_add_to "deltaY" (Z.abs (y - py)) 
                (add_to "deltaX" (Z.abs (x - px)) (MouseListener.event_data self)))
      as [H1 H2]; [set_solver | lia | | done].
    apply (mouse_ok_add_to "deltaX" (Z.abs (x - px)));
      [set_solver | lia | done].
  - unfold MouseListener.on_click. destruct pr; simpl; [| done].
    destruct (mouse_ok_add_to "clicks" 1 
                (MouseListener.event_data self))
      as [H1 H2]; [set_solver | lia | done | done].
  - destruct (mouse_ok_add_to "scrollY" (Z.abs sy) 
                (add_to "scrollX" (Z.abs sx) (MouseListener.event_data self)))
      as [H1 H2]; [set_solver | lia | | done].
    apply (mouse_ok_add_to "scrollX" (Z.abs sx));
      [set_solver | lia | done].
Qed.

(** X17.  Whatever callbacks and [next_event] calls a mouse listener sees
    after its construction, one after the other, its data holds exactly the five counters, none
    of them negative, and all of them are zero whenever [has_new_event] is
    false: a consumer that waits for the flag misses nothing. *)
Theorem mouse_invariant (l : list mouse_action) :
  mouse_ok (mouse_run l MouseListener.__init__).
Proof.
  assert (H0 : mouse_ok MouseListener.__init__).
  { unfold mouse_ok. simpl. split; [by vm_compute |]. split; [| done].
    intros key. unfold counter. rewrite !lookup_insert.
    repeat case_decide; simpl; try lia. by rewrite lookup_empty. }
  revert H0. generalize MouseListener.__init__.
  induction l as [| a l IH]; intros s Hs; [exact Hs |].
  simpl. apply IH. by apply mouse_ok_step.
Qed.

(** X18.  Which callbacks raise the flag: a move does when the pointer was
    seen before and is now elsewhere (the first move and a move to the same
    place do not), a click when the button goes down (not when it comes
    up), a scroll always, even by (0, 0).  A callback that does not raise
    the flag leaves the data as it was. *)
Theorem mouse_flag_raised (i : mouse_input) self :
  has_new_event (fst (mouse_callback i self))
  = MouseListener.new_event self || flags (MouseListener.pos self) i
  /\ (flags (MouseListener.pos self) i = false ->
      MouseListener.event_data (fst (mouse_callback i self))
      = MouseListener.event_data self).
Proof.
  unfold has_new_event.
  destruct i as [x y | x y b pr | x y sx sy]; simpl.
  - unfold MouseListener.on_move.
    destruct (MouseListener.pos self) as [[px py] |]; simpl;
      [| by rewrite orb_false_r].
    assert (Hx : (x - px =? 0) = (x =? px)).
    { destruct (Z.eqb_spec x px), (Z.eqb_spec (x - px) 0); lia || done. }
    assert (Hy : (y - py =? 0) = (y =? py)).
    { destruct (Z.eqb_spec y py), (Z.eqb_spec (y - py) 0); lia || done. }
    rewrite Hx, Hy.
    destruct (negb (x =? px) || negb (y =? py)); simpl;
      [by rewrite orb_true_r | by rewrite orb_false_r].
  - unfold MouseListener.on_click. destruct pr; simpl;
      [by rewrite orb_true_r | by rewrite orb_false_r].
  - by rewrite orb_true_r.
Qed.

Lemma travelled_displacement l self x0 y0 x1 y1 :
  MouseListener.pos self = Some (x0, y0) ->
  MouseListener.pos (mouse_feed l self) = Some (x1, y1) ->
  Z.abs (x1 - x0) <= fst (travelled (Some (x0, y0)) l)
  /\ Z.abs (y1 - y0) <= snd (travelled (Some (x0, y0)) l).
Proof.
  revert self x0 y0. induction l as [| i l IH]; intros self x0 y0 H0 H1.
  - change (mouse_feed [] self) with self in H1. rewrite H0 in H1.
    injection H1 as <- <-. simpl. lia.
  - rewrite mouse_feed_cons in H1.
    pose proof (pos_callback i self) as Hp.
    destruct i as [x y | x y b pr | x y sx sy]; simpl.
    + specialize (IH _ x y Hp H1).
      destruct (travelled (Some (x, y)) l). simpl in *. lia.
    + rewrite H0 in Hp. apply (IH _ x0 y0 Hp H1).
    + rewrite H0 in Hp. apply (IH _ x0 y0 Hp H1).
Qed.

(** X19.  The distance a mouse listener accumulates along an axis is at
    least the displacement of the pointer along it, from where the listener
    had last seen it to where it sees it now. *)
Theorem mouse_distance_at_least_displacement
    (l : list mouse_input) self x0 y0 x1 y1 :
  MouseListener.pos self = Some (x0, y0) ->
  MouseListener.pos (mouse_feed l self) = Some (x1, y1) ->
  Z.abs (x1 - x0)
  <= counter "deltaX" (MouseListener.event_data (mouse_feed l self))
     - counter "deltaX" (MouseListener.event_data self)
  /\ Z.abs (y1 - y0)
     <= counter "deltaY" (MouseListener.event_data (mouse_feed l self))
        - counter "deltaY" (MouseListener.event_data self).
Proof.
  intros H0 H1.
  destruct (travelled_displacement l self x0 y0 x1 y1 H0 H1) as [Hx Hy].
  rewrite !counter_after_feed, H0. unfold tally.
  repeat case_decide; try done. lia.
Qed.

End Listeners.

(** ** More concrete runs *)

Lemma orphaned_loop_stops_witness :
  fst (AFKWatcher.while_true Linux Sample.watcher
         [Sample2.orphaned 1000 7; Sample.at_ 1005 12] (fresh false))
  = Stopped.
Proof.
  destruct (orphaned_loop_stops Linux Sample.watcher (Sample2.orphaned 1000 7)
              (fresh false) [Sample.at_ 1005 12]) as (Hstop & _ & _).
  rewrite Hstop; reflexivity.
Defined.

Lemma interrupted_sleep_stops_witness :
  heartbeats (emitted Linux Sample.watcher (Sample2.interrupted 1000 7)
                (fresh false))
  = heartbeats (emitted Linux Sample.watcher (Sample.at_ 1000 7) (fresh false)).
Proof.
  destruct (interrupted_sleep_stops Linux Sample.watcher
              (Sample2.interrupted 1000 7) (fresh false) 7 KeyboardInterrupt [])
    as (_ & Hhb & _).
  - reflexivity.
  - reflexivity.
  - apply Qle_bool_iff. reflexivity.
  - reflexivity.
  - exact Hhb.
Defined.

Lemma negative_poll_time_stops_witness :
  Settings.__init__ Sample.config (Some 5) (Some (-1))
  = inr (AFKWatcher.settings Sample2.watcher_negative_poll)
  /\ fst (AFKWatcher.while_true Linux Sample2.watcher_negative_poll
            [Sample.at_ 1000 2; Sample.at_ 1005 7] (fresh false))
     = Stopped.
Proof.
  split; [reflexivity |].
  destruct (negative_poll_time_stops Linux Sample2.watcher_negative_poll
              (Sample.at_ 1000 2) (fresh false) 2 [Sample.at_ 1005 7])
    as (Hstop & _).
  - reflexivity.
  - reflexivity.
  - apply Qlt_bool_iff. reflexivity.
  - rewrite Hstop. reflexivity.
Defined.

Lemma state_follows_probe_witness :
  afk (snd (AFKWatcher.iteration Linux Sample.watcher (Sample.at_ 1000 200)
              (fresh false))) = true
  /\ afk (snd (AFKWatcher.iteration Linux Sample.watcher
                 (Sample.failing 1000) (fresh true))) = true.
Proof.
  split.
  - destruct (state_follows_probe Linux Sample.watcher (Sample.at_ 1000 200)
                (fresh false)) as [Hv _].
    apply (Hv 200); [reflexivity | reflexivity |].
    apply Qle_bool_iff. reflexivity.
  - destruct (state_follows_probe Linux Sample.watcher (Sample.failing 1000)
                (fresh true)) as [_ Hn].
    apply Hn. reflexivity.
Defined.

Lemma heartbeat_data_witness :
  data (fst (ping_record Sample.watcher false (1000 - timedelta 7))) !! "app"
  = Some "afk".
Proof.
  apply (heartbeat_data Linux Sample.watcher [Sample.at_ 1000 7]
           "sd-watcher-afk" _ (180 + 5) true).
  vm_compute. apply list_elem_of_further, list_elem_of_here.
Defined.

Lemma heartbeat_count_witness :
  (1 <= length (heartbeats (emitted Linux Sample.watcher (Sample.at_ 1000 7)
                              (fresh false))))%nat.
Proof.
  destruct (heartbeat_count Linux Sample.watcher [] (fresh false)) as [_ H].
  apply H. discriminate.
Defined.

Lemma macos_failure_reads_as_active_witness :
  afk (snd (AFKWatcher.iteration Darwin Sample.watcher (Sample.failing 1000)
              (fresh true))) = false.
Proof.
  destruct (macos_failure_reads_as_active Sample.watcher (Sample.failing 1000)
              (fresh true) (OSError "event source unavailable"))
    as (_ & _ & Hst & _).
  - reflexivity.
  - reflexivity.
  - reflexivity.
  - apply Qlt_bool_iff. reflexivity.
  - exact Hst.
Defined.

Lemma explicit_arguments_win_witness :
  Settings.__init__ ∅ (Some 60) (Some 5)
  = inr {| Settings.timeout := 60; Settings.poll_time := 5 |}.
Proof.
  destruct (explicit_arguments_win ∅ 60 5) as [H _].
  - intros H. apply Qeq_bool_iff in H. discriminate.
  - intros H. apply Qeq_bool_iff in H. discriminate.
  - exact H.
Defined.

Lemma missing_setting_raises_KeyError_witness :
  Settings.__init__ ∅ (Some 0) (Some 5) = inl (KeyError "timeout")
  /\ Settings.__init__ {["timeout" := 180]} None None
     = inl (KeyError "poll_time").
Proof.
  split.
  - destruct (missing_setting_raises_KeyError ∅ (Some 0) (Some 5)) as [H _].
    apply H; reflexivity.
  - destruct (missing_setting_raises_KeyError {["timeout" := 180]} None None)
      as [_ H].
    apply (H 180); reflexivity.
Defined.

Lemma run_creates_bucket_once_witness :
  exists st body,
    AFKWatcher_run Linux Sample.watcher None
      [Sample.at_ 1000 7; Sample2.interrupted 1005 12]
    = (inr st,
       [Emitted (Log INFO "sd-watcher-afk started");
        CreateBucket "sd-watcher-afk" "afkstatus" true;
        ClientEnter] ++ body)
    /\ List.filter is_create_bucket body = [].
Proof.
  destruct (run_creates_bucket_once Linux Sample.watcher
              [Sample.at_ 1000 7; Sample2.interrupted 1005 12])
    as (_ & st & body & Hrun & _ & Hnone & _).
  exists st, body. split; [exact Hrun | exact Hnone].
Defined.

Lemma keyboard_counts_presses_witness :
  fst (listeners.next_event
         (listeners.key_feed
            [listeners.Press "'a'"; listeners.Release "'a'";
             listeners.Press "Key.space"]
            listeners.KeyboardListener.__init__))
  = {["presses" := 2%Z]}.
Proof.
  destruct (keyboard_counts_presses
              [listeners.Press "'a'"; listeners.Release "'a'";
               listeners.Press "Key.space"]
              listeners.KeyboardListener.__init__ 0%Z) as (_ & _ & H).
  - reflexivity.
  - rewrite H. reflexivity.
Defined.

Lemma mouse_flag_raised_witness :
  listeners.MouseListener.event_data
    (fst (listeners.mouse_callback (listeners.Move 3 4)
            listeners.MouseListener.__init__))
  = listeners.MouseListener.event_data listeners.MouseListener.__init__.
Proof.
  destruct (mouse_flag_raised (listeners.Move 3 4)
              listeners.MouseListener.__init__) as [_ H].
  apply H. reflexivity.
Defined.

Lemma mouse_distance_at_least_displacement_witness :
  (Z.abs (13 - 10)
   <= listeners.counter "deltaX"
        (listeners.MouseListener.event_data
           (listeners.mouse_feed
              [listeners.Move 20 10; listeners.Move 13 14]
              Sample2.mouse_at_10_10))
      - listeners.counter "deltaX"
          (listeners.MouseListener.event_data Sample2.mouse_at_10_10))%Z.
Proof.
  destruct (mouse_distance_at_least_displacement
              [listeners.Move 20 10; listeners.Move 13 14]
              Sample2.mouse_at_10_10 10 10 13 14) as [H _].
  - reflexivity.
  - reflexivity.
  - exact H.
Defined.
